(** * Ledger mutation and transfer path of the banking services

    A shallow embedding of the two Express services that hold the ledger logic:

    - the account service ([GET /api/account/:id], [POST /api/account],
      [PATCH /api/account/:id/balance]), and
    - the transaction service ([POST /api/transaction],
      [GET /api/transaction/:id]).

    The notification service ([POST /api/notification/send] with its
    timers, [GET /api/notification/:id],
    [POST /api/notification/security-alert]) is embedded after them.

    Conventions of the embedding.

    - A JavaScript number is a binary64 [float], with the infinities and
      NaN; sums, differences and comparisons are the IEEE 754 ones.  A
      JSON request field is a [JsValue], so the handlers' truthiness
      tests, [typeof] tests and relational comparisons are written as
      the source has them.
    - The PostgreSQL store behind [pool.query] is not part of the
      repository.  It is modelled as the [accounts] table keyed by
      [account_id].  The [balance] column keeps the number bound to it
      and [parseFloat] gives it back on reading, as with a numeric
      column of no fixed scale (the driver sends the shortest decimal
      that reads back as the number); a rounding by the column is not
      modelled.  The conversions the server applies to the other query
      parameters are fields of a [Host] record, as is JavaScript's
      string-to-number conversion.  Timestamps
      ([created_at], [updated_at], [timestamp]) are left out.
    - The id of the caller, [req.user.id], is a number with an integer
      value and is given by that value; [float_of_Z] gives the number
      back.
    - The middleware in front of the routes (helmet, the rate limiter,
      the JSON body parser) is not embedded: a request of a schedule is
      one that has reached its route.
    - Every [await pool.query] is a point where other requests run.  The
      balance update has two of them, so it is split in two steps
      ([patch_begin], [patch_commit]) that a scheduler may interleave. *)

From Stdlib Require Import ZArith Floats String Ascii.

#[local] Set Warnings "-inexact-float".
From stdpp Require Import gmap strings list pretty.

Local Open Scope string_scope.
Local Open Scope Z_scope.

(** ** JavaScript values *)

Module Js.

(** JSON request fields.  An object or an array is kept with the string
    its [ToPrimitive] conversion yields. *)
Inductive JsValue : Type :=
  | JUndefined
  | JNull
  | JBool (b : bool)
  | JNum (n : float)
  | JStr (s : string)
  | JObj (to_primitive : string).

(** [!v] is [negb (truthy v)]; of the numbers, the two zeros and NaN are
    falsy. *)
Definition truthy (v : JsValue) : bool :=
  match v with
  | JUndefined | JNull => false
  | JBool b => b
  | JNum n => negb ((n =? 0)%float || PrimFloat.is_nan n)
  | JStr s => negb (String.eqb s "")
  | JObj _ => true
  end.

Definition typeof (v : JsValue) : string :=
  match v with
  | JUndefined => "undefined"
  | JNull => "object"
  | JBool _ => "boolean"
  | JNum _ => "number"
  | JStr _ => "string"
  | JObj _ => "object"
  end.

(** [ToNumber].  The conversion of a string is the host's. *)
Definition ToNumber (StringToNumber : string -> float) (v : JsValue) : float :=
  match v with
  | JUndefined => PrimFloat.nan
  | JNull => 0%float
  | JBool b => if b then 1%float else 0%float
  | JNum n => n
  | JStr s => StringToNumber s
  | JObj p => StringToNumber p
  end.

(** [v < k], [v > k] and [v <= k] against a number literal [k]: the
    operand is converted with [ToNumber], and a NaN operand makes the
    comparison false. *)
Definition lt_num (S2N : string -> float) (v : JsValue) (k : float) : bool :=
  (ToNumber S2N v <? k)%float.

Definition gt_num (S2N : string -> float) (v : JsValue) (k : float) : bool :=
  (k <? ToNumber S2N v)%float.

Definition le_num (S2N : string -> float) (v : JsValue) (k : float) : bool :=
  (ToNumber S2N v <=? k)%float.

(** [[a, b].includes(v)] for string literals: only a string equal to one
    of them is included. *)
Definition includes (l : list string) (v : JsValue) : bool :=
  match v with
  | JStr s => existsb (String.eqb s) l
  | _ => false
  end.

(** [/^\d+$/.test(s)] *)
Definition is_digit (c : ascii) : bool :=
  (48 <=? nat_of_ascii c)%nat && (nat_of_ascii c <=? 57)%nat.

Fixpoint all_digits (s : string) : bool :=
  match s with
  | EmptyString => true
  | String c r => is_digit c && all_digits r
  end.

Definition digits_only (s : string) : bool :=
  negb (String.eqb s "") && all_digits s.

(** The integer that the leading decimal digits of [s] spell. *)
Fixpoint digits_value_from (acc : Z) (s : string) : Z :=
  match s with
  | EmptyString => acc
  | String c r =>
      if is_digit c
      then digits_value_from (10 * acc + (Z.of_nat (nat_of_ascii c) - 48)) r
      else acc
  end.

Definition digits_value (s : string) : Z := digits_value_from 0 s.

(** The number nearest to an integer (ties to even, infinite beyond the
    range). *)
Definition float_of_Z (z : Z) : float :=
  SF2Prim (binary_normalize prec emax z 0 false).

(** [parseInt(s)] on a string of digits: a number, hence the integer
    rounded to 53 significant bits. *)
Definition parseInt (s : string) : float := float_of_Z (digits_value s).

(** [s.replace(/\d(?=\d{4})/g, '*')]: a digit followed by four digits is
    starred. *)
Definition four_digits (s : string) : bool :=
  match s with
  | String a (String b (String c (String d _))) =>
      is_digit a && is_digit b && is_digit c && is_digit d
  | _ => false
  end.

Fixpoint mask (s : string) : string :=
  match s with
  | EmptyString => EmptyString
  | String c r =>
      String (if is_digit c && four_digits r then "*"%char else c) (mask r)
  end.

(** [s.padStart(n, '0')]. *)
Definition padStart0 (n : nat) (s : string) : string :=
  String.append (String.concat "" (replicate (n - String.length s)%nat "0")) s.

End Js.

Import Js.

(** ** The host: conversions the repository does not contain *)

Record Host : Type := {
  (** JavaScript's [ToNumber] on a string. *)
  StringToNumber : string -> float;
  (** The server's reading of a non-number parameter bound to the
      [balance] column; [None]: the query raises. *)
  pg_numeric_in : JsValue -> option float;
  (** The server's reading of a text parameter compared with
      [account_id]; [None]: the query raises. *)
  pg_int4_in : string -> option Z
}.

(** A host to evaluate the handlers on concrete requests.  It reads
    integer literals, and is not meant for other strings (fractions,
    exponents, blanks), which it takes for NaN or refuses.  JavaScript's
    conversion reads the empty string as 0, decimal digits with an
    optional sign, and [0x] with hexadecimal digits and no sign.  The
    server reads, for the [balance] column, decimal digits or [0x] with
    hexadecimal digits, each with an optional sign, and for
    [account_id] decimal digits within the range of a 4-byte integer. *)
Definition unsigned_of (s : string) : string :=
  match s with
  | String "-" r => r
  | String "+" r => r
  | _ => s
  end.

Definition is_negative (s : string) : bool :=
  match s with
  | String "-" _ => true
  | _ => false
  end.

Definition signed (neg : bool) (f : float) : float :=
  if neg then (- f)%float else f.

Definition hex_digit (c : ascii) : option Z :=
  let n := Z.of_nat (nat_of_ascii c) in
  if (48 <=? n) && (n <=? 57) then Some (n - 48)
  else if (97 <=? n) && (n <=? 102) then Some (n - 87)
  else if (65 <=? n) && (n <=? 70) then Some (n - 55)
  else None.

Fixpoint hex_value_from (acc : Z) (s : string) : option Z :=
  match s with
  | EmptyString => Some acc
  | String c r =>
      match hex_digit c with
      | Some d => hex_value_from (16 * acc + d) r
      | None => None
      end
  end.

(** [0x] or [0X] and hexadecimal digits. *)
Definition hex_literal (s : string) : option Z :=
  match s with
  | String "0" (String "x" (String c r))
  | String "0" (String "X" (String c r)) => hex_value_from 0 (String c r)
  | _ => None
  end.

Definition js_integer_literal (s : string) : float :=
  if String.eqb s "" then 0%float
  else
    match hex_literal s with
    | Some v => float_of_Z v
    | None =>
        if digits_only (unsigned_of s)
        then signed (is_negative s) (float_of_Z (digits_value (unsigned_of s)))
        else PrimFloat.nan
    end.

Definition pg_integer_literal (s : string) : option float :=
  match hex_literal (unsigned_of s) with
  | Some v => Some (signed (is_negative s) (float_of_Z v))
  | None =>
      if digits_only (unsigned_of s)
      then Some (signed (is_negative s)
                   (float_of_Z (digits_value (unsigned_of s))))
      else None
  end.

Definition plain_host : Host := {|
  StringToNumber := js_integer_literal;
  pg_numeric_in := fun v =>
    match v with
    | JStr s => pg_integer_literal s
    | _ => None
    end;
  pg_int4_in := fun s =>
    if digits_only s && (digits_value s <=? 2147483647)
    then Some (digits_value s) else None
|}.

(** ** The account store *)

(** A row of [accounts]; the key [account_id] is the key of the map. *)
Record Account : Type := {
  user_id : Z;
  account_number : string;
  account_type : string;
  balance : float
}.

Record Store : Type := {
  accounts : gmap Z Account;
  (** the next value of the [account_id] sequence *)
  next_account_id : Z
}.

Definition empty_store : Store :=
  {| accounts := ∅; next_account_id := 1 |}.

(** The result of [pool.query]: rows, or a raised error. *)
Inductive DbResult (A : Type) : Type :=
  | Raised
  | Returned (r : A).
Arguments Raised {A}.
Arguments Returned {A} r.

Definition number_of (v : JsValue) : float :=
  match v with JNum n => n | _ => 0%float end.

Definition string_of (v : JsValue) : string :=
  match v with JStr s => s | _ => "" end.

(** [v === 'lit'] *)
Definition strict_eq_str (v : JsValue) (lit : string) : bool :=
  match v with JStr s => String.eqb s lit | _ => false end.

(** [SELECT ... FROM accounts WHERE account_id = $1 AND user_id = $2]:
    the matching row, if any, as [rows[0]]. *)
Definition db_select (H : Host) (st : Store) (accountId : string) (uid : Z)
  : DbResult (option (Z * Account)) :=
  match pg_int4_in H accountId with
  | None => Raised
  | Some k =>
      match accounts st !! k with
      | Some a => if user_id a =? uid then Returned (Some (k, a))
                  else Returned None
      | None => Returned None
      end
  end.

Definition numeric_param (H : Host) (v : JsValue) : option float :=
  match v with
  | JNum n => Some n
  | _ => pg_numeric_in H v
  end.

(** [INSERT INTO accounts (user_id, account_number, account_type, balance)
    VALUES ($1, $2, $3, $4) RETURNING account_id] *)
Definition db_insert (H : Host) (st : Store) (uid : Z) (accountNumber : string)
    (accountType initialDeposit : JsValue) : DbResult (Store * Z) :=
  match numeric_param H initialDeposit with
  | None => Raised
  | Some b =>
      let k := next_account_id st in
      match accounts st !! k with
      | Some _ => Raised
      | None =>
          Returned
            ({| accounts :=
                  <[k := {| user_id := uid;
                            account_number := accountNumber;
                            account_type := string_of accountType;
                            balance := b |}]> (accounts st);
                next_account_id := k + 1 |}, k)
      end
  end.

Definition set_balance (b : float) (a : Account) : Account :=
  {| user_id := user_id a;
     account_number := account_number a;
     account_type := account_type a;
     balance := b |}.

(** [UPDATE accounts SET balance = $1, updated_at = NOW()
    WHERE account_id = $2 AND user_id = $3] *)
Definition db_update (H : Host) (st : Store) (newBalance : float)
    (accountId : string) (uid : Z) : DbResult Store :=
  match pg_int4_in H accountId with
  | None => Raised
  | Some k =>
      match accounts st !! k with
      | Some a =>
          if user_id a =? uid
          then Returned {| accounts := <[k := set_balance newBalance a]> (accounts st);
                           next_account_id := next_account_id st |}
          else Returned st
      | None => Returned st
      end
  end.

(** ** Responses and log lines *)

Inductive Body : Type :=
  | NoBody
  | TextBody (text : string)
  | ErrorBody (error : string)
  | AccountBody (account_id : Z) (account_number : string) (balance : float)
      (account_type : string)
  | CreatedBody (accountId : Z) (accountNumber : string)
      (accountType balance : JsValue)
  | BalanceBody (success : bool) (newBalance : float)
      (transactionType amount : JsValue)
  | TransactionBody (transactionId status : string)
      (fromAccount toAccount amount : JsValue)
  | TransactionInfoBody (transactionId status : string) (amount : float)
      (description : string).

Record Response : Type := { status : Z; body : Body }.

Definition json (code : Z) (b : Body) : Response :=
  {| status := code; body := b |}.

(** The lines the handlers hand to the logger, with their metadata. *)
Inductive LogEntry : Type :=
  | LogNoToken
  | LogInvalidToken
  | LogInvalidAccountId (accountId : string) (userId : Z)
  | LogUnauthorizedAccess (requestedAccount : string) (userId : Z)
  | LogAccountNotFound (accountId : string) (userId : Z)
  | LogAccountAccessed (accountId : string) (userId : Z)
  | LogErrorFetching (accountId : string) (userId : Z)
  | LogNewAccount (accountId userId : Z) (accountType : JsValue)
  | LogErrorCreating (userId : Z)
  | LogInsufficientFunds (accountId : string) (currentBalance : float)
      (attemptedAmount transactionType : JsValue)
  | LogBalanceUpdated (accountId : string) (oldBalance newBalance : float)
      (transactionType amount : JsValue)
  | LogErrorUpdating (accountId : string) (userId : Z).

(** ** The account service *)

Record Svc : Type := { db : Store; log : list LogEntry }.

Definition logged (e : LogEntry) (s : Svc) : Svc :=
  {| db := db s; log := log s ++ [e] |}.

Definition with_db (st : Store) (s : Svc) : Svc :=
  {| db := st; log := log s |}.

(** What [jwt.verify] makes of the [Authorization] header. *)
Inductive Credentials : Type :=
  | NoToken
  | InvalidToken
  | ValidToken (id : Z).

(** The middleware of the three routes.  A refused request is logged
    and answered with [res.sendStatus], whose body is the text of the
    status. *)
Definition authenticateToken {A : Type} (c : Credentials) (s : Svc)
    (reply : Response -> A) (next : Z -> Svc -> Svc * A) : Svc * A :=
  match c with
  | NoToken =>
      (logged LogNoToken s, reply (json 401 (TextBody "Unauthorized")))
  | InvalidToken =>
      (logged LogInvalidToken s, reply (json 403 (TextBody "Forbidden")))
  | ValidToken uid => next uid s
  end.

(** [GET /api/account/:id] *)
Definition get_account (H : Host) (c : Credentials) (accountId : string)
    (s : Svc) : Svc * Response :=
  authenticateToken c s id (fun uid s =>
    if negb (truthy (JStr accountId)) || negb (digits_only accountId) then
      (logged (LogInvalidAccountId accountId uid) s,
       json 400 (ErrorBody "Invalid account ID"))
    else if negb (float_of_Z uid =? parseInt accountId)%float then
      (logged (LogUnauthorizedAccess accountId uid) s,
       json 403 (ErrorBody "Access denied"))
    else
      match db_select H (db s) accountId uid with
      | Raised =>
          (logged (LogErrorFetching accountId uid) s,
           json 500 (ErrorBody "Internal server error"))
      | Returned None =>
          (logged (LogAccountNotFound accountId uid) s,
           json 404 (ErrorBody "Account not found"))
      | Returned (Some (k, a)) =>
          (logged (LogAccountAccessed accountId uid) s,
           json 200 (AccountBody k (mask (account_number a)) (balance a)
                       (account_type a)))
      end).

Definition MAX_DEPOSIT : float := 1000000%float.

(** [POST /api/account]; [rnd] is [Math.floor(Math.random() * 1000000000)]. *)
Definition create_account (H : Host) (c : Credentials) (rnd : N)
    (accountType initialDeposit : JsValue) (s : Svc) : Svc * Response :=
  authenticateToken c s id (fun uid s =>
    if negb (truthy accountType)
       || negb (includes ["checking"; "savings"] accountType) then
      (s, json 400 (ErrorBody "Invalid account type"))
    else if negb (truthy initialDeposit)
            || lt_num (StringToNumber H) initialDeposit 0
            || gt_num (StringToNumber H) initialDeposit MAX_DEPOSIT then
      (s, json 400 (ErrorBody "Invalid initial deposit amount"))
    else
      let accountNumber := padStart0 10 (pretty rnd) in
      match db_insert H (db s) uid accountNumber accountType initialDeposit with
      | Raised =>
          (logged (LogErrorCreating uid) s,
           json 500 (ErrorBody "Internal server error"))
      | Returned (st, k) =>
          (logged (LogNewAccount k uid accountType) (with_db st s),
           json 201 (CreatedBody k (mask accountNumber) accountType
                       initialDeposit))
      end).

(** [PATCH /api/account/:id/balance].  The handler awaits the [SELECT]
    and then the [UPDATE]; what it holds between the two is a
    [PendingUpdate]. *)
Record PendingUpdate : Type := {
  p_accountId : string;
  p_userId : Z;
  p_currentBalance : float;
  p_newBalance : float;
  p_transactionType : JsValue;
  p_amount : JsValue
}.

(** [transactionType === 'credit' ? currentBalance + amount
                                   : currentBalance - amount] *)
Definition newBalance_of (currentBalance : float)
    (transactionType amount : JsValue) : float :=
  if strict_eq_str transactionType "credit"
  then (currentBalance + number_of amount)%float
  else (currentBalance - number_of amount)%float.

Inductive PatchStage : Type :=
  | Finished (r : Response)
  | AwaitUpdate (p : PendingUpdate).

(** From the entry of the handler to the point where the [UPDATE] is
    issued: validation, the [SELECT], the new balance and its check. *)
Definition patch_begin (H : Host) (c : Credentials) (accountId : string)
    (amount transactionType : JsValue) (s : Svc) : Svc * PatchStage :=
  authenticateToken c s Finished (fun uid s =>
    if negb (truthy amount) || negb (String.eqb (typeof amount) "number") then
      (s, Finished (json 400 (ErrorBody "Invalid amount")))
    else if negb (includes ["credit"; "debit"] transactionType) then
      (s, Finished (json 400 (ErrorBody "Invalid transaction type")))
    else
      match db_select H (db s) accountId uid with
      | Raised =>
          (logged (LogErrorUpdating accountId uid) s,
           Finished (json 500 (ErrorBody "Internal server error")))
      | Returned None =>
          (s, Finished (json 404 (ErrorBody "Account not found")))
      | Returned (Some (_, a)) =>
          let currentBalance := balance a in
          let newBalance :=
            newBalance_of currentBalance transactionType amount in
          if (newBalance <? 0)%float then
            (logged (LogInsufficientFunds accountId currentBalance amount
                       transactionType) s,
             Finished (json 400 (ErrorBody "Insufficient funds")))
          else
            (s, AwaitUpdate {| p_accountId := accountId;
                               p_userId := uid;
                               p_currentBalance := currentBalance;
                               p_newBalance := newBalance;
                               p_transactionType := transactionType;
                               p_amount := amount |})
      end).

(** The [UPDATE], the log line and the response. *)
Definition patch_commit (H : Host) (p : PendingUpdate) (s : Svc)
  : Svc * Response :=
  match db_update H (db s) (p_newBalance p) (p_accountId p) (p_userId p) with
  | Raised =>
      (logged (LogErrorUpdating (p_accountId p) (p_userId p)) s,
       json 500 (ErrorBody "Internal server error"))
  | Returned st =>
      (logged (LogBalanceUpdated (p_accountId p) (p_currentBalance p)
                 (p_newBalance p) (p_transactionType p) (p_amount p))
         (with_db st s),
       json 200 (BalanceBody true (p_newBalance p) (p_transactionType p)
                   (p_amount p)))
  end.

(** The handler run without any other request in between. *)
Definition patch_balance (H : Host) (c : Credentials) (accountId : string)
    (amount transactionType : JsValue) (s : Svc) : Svc * Response :=
  match patch_begin H c accountId amount transactionType s with
  | (s1, Finished r) => (s1, r)
  | (s1, AwaitUpdate p) => patch_commit H p s1
  end.

(** ** The transaction service *)

Inductive TxLogEntry : Type :=
  | LogInvalidTransaction (fromAccount toAccount amount : JsValue)
  | LogTransactionProcessed (transactionId : string)
      (fromAccount toAccount amount : JsValue).

(** [POST /api/transaction]; [rnd] is
    [Math.random().toString(36).substr(2, 9)]. *)
Definition post_transaction (H : Host) (rnd : string)
    (fromAccount toAccount amount : JsValue) : list TxLogEntry * Response :=
  if negb (truthy fromAccount) || negb (truthy toAccount)
     || negb (truthy amount) || le_num (StringToNumber H) amount 0 then
    ([LogInvalidTransaction fromAccount toAccount amount],
     json 400 (ErrorBody "Invalid transaction data"))
  else
    let transactionId := String.append "txn_" rnd in
    ([LogTransactionProcessed transactionId fromAccount toAccount amount],
     json 201 (TransactionBody transactionId "completed" fromAccount
                 toAccount amount)).

(** [GET /api/transaction/:id] *)
Definition get_transaction (transactionId : string) : Response :=
  json 200 (TransactionInfoBody transactionId "completed" 150
              "Account transfer").

(** ** The two services as one system *)

Record System : Type := {
  svc : Svc;
  (** balance updates between their [SELECT] and their [UPDATE] *)
  inflight : list PendingUpdate;
  txlog : list TxLogEntry
}.

Definition initial : System :=
  {| svc := {| db := empty_store; log := [] |}; inflight := []; txlog := [] |}.

Inductive Event : Type :=
  | EGetAccount (c : Credentials) (accountId : string)
  | ECreateAccount (c : Credentials) (rnd : N)
      (accountType initialDeposit : JsValue)
  | EPatchBegin (c : Credentials) (accountId : string)
      (amount transactionType : JsValue)
  | EPatchCommit (i : nat)
  | EPostTransaction (rnd : string) (fromAccount toAccount amount : JsValue)
  | EGetTransaction (transactionId : string).

(** One scheduling step: a handler runs up to its next [await], or the
    [i]-th waiting balance update resumes.  The response, when the
    request ends in this step, is returned with the new system. *)
Definition step (H : Host) (sys : System) (e : Event)
  : System * option Response :=
  match e with
  | EGetAccount c accountId =>
      let (s, r) := get_account H c accountId (svc sys) in
      ({| svc := s; inflight := inflight sys; txlog := txlog sys |}, Some r)
  | ECreateAccount c rnd accountType initialDeposit =>
      let (s, r) := create_account H c rnd accountType initialDeposit (svc sys) in
      ({| svc := s; inflight := inflight sys; txlog := txlog sys |}, Some r)
  | EPatchBegin c accountId amount transactionType =>
      match patch_begin H c accountId amount transactionType (svc sys) with
      | (s, Finished r) =>
          ({| svc := s; inflight := inflight sys; txlog := txlog sys |}, Some r)
      | (s, AwaitUpdate p) =>
          ({| svc := s; inflight := inflight sys ++ [p]; txlog := txlog sys |},
           None)
      end
  | EPatchCommit i =>
      match inflight sys !! i with
      | None => (sys, None)
      | Some p =>
          let (s, r) := patch_commit H p (svc sys) in
          ({| svc := s; inflight := delete i (inflight sys);
              txlog := txlog sys |}, Some r)
      end
  | EPostTransaction rnd fromAccount toAccount amount =>
      let (l, r) := post_transaction H rnd fromAccount toAccount amount in
      ({| svc := svc sys; inflight := inflight sys; txlog := txlog sys ++ l |},
       Some r)
  | EGetTransaction transactionId =>
      (sys, Some (get_transaction transactionId))
  end.

Fixpoint run (H : Host) (sys : System) (es : list Event) : System :=
  match es with
  | [] => sys
  | e :: es' => run H (fst (step H sys e)) es'
  end.

(** The responses of a schedule, in order. *)
Fixpoint responses (H : Host) (sys : System) (es : list Event)
  : list (option Response) :=
  match es with
  | [] => []
  | e :: es' => snd (step H sys e) :: responses H (fst (step H sys e)) es'
  end.

(** The stored balance of an account, if the account exists. *)
Definition balance_of (sys : System) (k : Z) : option float :=
  balance <$> accounts (db (svc sys)) !! k.

(** ** Requests served one at a time *)

Inductive Request : Type :=
  | RGetAccount (c : Credentials) (accountId : string)
  | RCreateAccount (c : Credentials) (rnd : N)
      (accountType initialDeposit : JsValue)
  | RPatchBalance (c : Credentials) (accountId : string)
      (amount transactionType : JsValue).

(** A request handled from start to end with no other request in
    between. *)
Definition serve (H : Host) (s : Svc) (r : Request) : Svc * Response :=
  match r with
  | RGetAccount c accountId => get_account H c accountId s
  | RCreateAccount c rnd accountType initialDeposit =>
      create_account H c rnd accountType initialDeposit s
  | RPatchBalance c accountId amount transactionType =>
      patch_balance H c accountId amount transactionType s
  end.

Fixpoint serve_all (H : Host) (s : Svc) (rs : list Request) : Svc :=
  match rs with
  | [] => s
  | r :: rs' => serve_all H (fst (serve H s r)) rs'
  end.

(** ** Vocabulary of the properties *)

(** A balance that the test [newBalance < 0] does not find negative. *)
Definition not_below_zero (b : float) : Prop := (b <? 0)%float = false.

Definition balances_nonneg (st : Store) : Prop :=
  forall k a, accounts st !! k = Some a -> not_below_zero (balance a).

Definition writes_nonneg (ps : list PendingUpdate) : Prop :=
  Forall (fun p => not_below_zero (p_newBalance p)) ps.

Definition sys_nonneg (sys : System) : Prop :=
  balances_nonneg (db (svc sys)) /\ writes_nonneg (inflight sys).

(** The deposit of a creation is a JSON number. *)
Definition deposit_is_number (e : Event) : Prop :=
  match e with
  | ECreateAccount _ _ _ initialDeposit => exists n, initialDeposit = JNum n
  | _ => True
  end.

(** The audit trail of the code is its ["Balance updated"] log line. *)
Definition is_balance_update (e : LogEntry) : bool :=
  match e with LogBalanceUpdated _ _ _ _ _ => true | _ => false end.

Definition balance_updates (l : list LogEntry) : list LogEntry :=
  List.filter is_balance_update l.





Definition stored_balance (s : Svc) (k : Z) : option float :=
  balance <$> accounts (db s) !! k.

(** The caller [uid] owns no account that the path parameter
    [accountId] designates. *)
Definition not_owner (H : Host) (s : Svc) (uid : Z) (accountId : string)
  : Prop :=
  forall k a, pg_int4_in H accountId = Some k ->
              accounts (db s) !! k = Some a -> user_id a <> uid.

(** The answers to a caller that owns no account designated by
    [accountId]; neither mentions the store. *)
Definition get_answer_nonowner (H : Host) (uid : Z) (accountId : string)
  : Response :=
  if negb (truthy (JStr accountId)) || negb (digits_only accountId) then
    json 400 (ErrorBody "Invalid account ID")
  else if negb (float_of_Z uid =? parseInt accountId)%float then
    json 403 (ErrorBody "Access denied")
  else
    match pg_int4_in H accountId with
    | None => json 500 (ErrorBody "Internal server error")
    | Some _ => json 404 (ErrorBody "Account not found")
    end.

Definition patch_answer_nonowner (H : Host) (accountId : string)
    (amount transactionType : JsValue) : Response :=
  if negb (truthy amount) || negb (String.eqb (typeof amount) "number") then
    json 400 (ErrorBody "Invalid amount")
  else if negb (includes ["credit"; "debit"] transactionType) then
    json 400 (ErrorBody "Invalid transaction type")
  else
    match pg_int4_in H accountId with
    | None => json 500 (ErrorBody "Internal server error")
    | Some _ => json 404 (ErrorBody "Account not found")
    end.




(** ** Concrete requests used to evaluate the handlers *)

Definition alice : Credentials := ValidToken 1.
Definition bob : Credentials := ValidToken 2.

(** Alice opens account 1 with 100.00. *)
Definition opened_100 : System :=
  run plain_host initial
    [ECreateAccount alice 123456789 (JStr "checking") (JNum 100)].


(** Accounts 1 (Alice, 60.00) and 2 (Bob, 10.00). *)
Definition two_accounts : System :=
  run plain_host initial
    [ECreateAccount alice 123456789 (JStr "checking") (JNum 60);
     ECreateAccount bob 987654321 (JStr "savings") (JNum 10)].

(** Account 1 of 100.00 after both debits have read it and the debit of
    30.00 has been written. *)
Definition one_write_pending : System :=
  run plain_host opened_100
    [EPatchBegin alice "1" (JNum 80) (JStr "debit");
     EPatchBegin alice "1" (JNum 30) (JStr "debit");
     EPatchCommit 1].

(** Accounts 1 and 2, both Alice's. *)
Definition alice_twice : System :=
  run plain_host initial
    [ECreateAccount alice 123456789 (JStr "checking") (JNum 60);
     ECreateAccount alice 987654321 (JStr "savings") (JNum 10)].

(** On account 1: a debit of 40.00, then a debit of 1000.00. *)
Definition serial_requests : list Request :=
  [RPatchBalance alice "1" (JNum 40) (JStr "debit");
   RPatchBalance alice "1" (JNum 1000) (JStr "debit")].

(** ** The notification service *)

Inductive NLogEntry : Type :=
  | LogNotificationSent (notificationId : string)
      (userId type priority : JsValue)
  | LogNotificationDelivered (notificationId : string) (type : JsValue)
  | LogSecurityAlert (alertType severity details : JsValue).

Inductive NBody : Type :=
  | NNoBody
  | NErrorBody (error : string)
  | NQueuedBody (notificationId status : string) (type : JsValue)
      (estimatedDelivery : Z)
  | NStatusBody (notificationId status type : string)
  | NAlertBody (status alertId : string) (escalated : bool).

Record NResponse : Type := { n_status : Z; n_body : NBody }.

Definition njson (code : Z) (b : NBody) : NResponse :=
  {| n_status := code; n_body := b |}.

(** A callback handed to [setTimeout], with the time at which it is
    due. *)
Record Timer : Type := {
  t_due : Z;
  t_notificationId : string;
  t_type : JsValue
}.

Record Notifier : Type := { nlog : list NLogEntry; timers : list Timer }.

Definition notifier0 : Notifier := {| nlog := []; timers := [] |}.

(** [{ 'email': 2000, 'sms': 1000, 'push': 500 }[type]]; [None] is
    [undefined]. *)
Definition deliveryTime (type : JsValue) : option Z :=
  match type with
  | JStr s =>
      if String.eqb s "email" then Some 2000
      else if String.eqb s "sms" then Some 1000
      else if String.eqb s "push" then Some 500
      else None
  | _ => None
  end.

(** [v || 'lit'] *)
Definition or_default (v : JsValue) (lit : string) : JsValue :=
  if truthy v then v else JStr lit.

(** [POST /api/notification/send]; [armed] is the time, in
    milliseconds, at which [setTimeout] is called, [now] is the later
    [Date.now()] of the response, and [rnd] is
    [Math.random().toString(36).substr(2, 9)].  An [undefined] delay
    makes [setTimeout] wait 1 ms and the date of the response invalid,
    which raises. *)
Definition send_notification (armed now : Z) (rnd : string)
    (userId type message priority : JsValue) (n : Notifier)
  : Notifier * NResponse :=
  if negb (truthy userId) || negb (truthy type) || negb (truthy message) then
    (n, njson 400 (NErrorBody "Missing required fields"))
  else if negb (includes ["email"; "sms"; "push"] type) then
    (n, njson 400 (NErrorBody "Invalid notification type"))
  else
    let notificationId := String.append "notif_" rnd in
    let sent :=
      LogNotificationSent notificationId userId type
        (or_default priority "normal") in
    match deliveryTime type with
    | Some d =>
        ({| nlog := nlog n ++ [sent];
            timers := timers n ++ [{| t_due := armed + d;
                                      t_notificationId := notificationId;
                                      t_type := type |}] |},
         njson 201 (NQueuedBody notificationId "queued" type (now + d)))
    | None =>
        ({| nlog := nlog n ++ [sent];
            timers := timers n ++ [{| t_due := armed + 1;
                                      t_notificationId := notificationId;
                                      t_type := type |}] |},
         njson 500 NNoBody)
    end.

(** The callback of the [i]-th timer runs, once its delay has passed.
    Which of the due timers has its callback first is left to the
    schedule; the order in which Node runs them is one of these
    orders. *)
Definition fire_timer (now : Z) (i : nat) (n : Notifier) : Notifier :=
  match timers n !! i with
  | Some t =>
      if t_due t <=? now then
        {| nlog := nlog n ++ [LogNotificationDelivered (t_notificationId t)
                                (t_type t)];
           timers := delete i (timers n) |}
      else n
  | None => n
  end.

(** [GET /api/notification/:id] *)
Definition get_notification (notificationId : string) : NResponse :=
  njson 200 (NStatusBody notificationId "delivered" "email").

(** [POST /api/notification/security-alert] *)
Definition security_alert (rnd : string) (alertType severity details : JsValue)
    (n : Notifier) : Notifier * NResponse :=
  ({| nlog := nlog n ++ [LogSecurityAlert alertType severity details];
      timers := timers n |},
   njson 200 (NAlertBody "security alert processed" (String.append "alert_" rnd)
                (strict_eq_str severity "high"))).

Inductive NEvent : Type :=
  | NSend (armed now : Z) (rnd : string)
      (userId type message priority : JsValue)
  | NFire (now : Z) (i : nat)
  | NStatus (notificationId : string)
  | NAlert (rnd : string) (alertType severity details : JsValue).

Definition nstep (n : Notifier) (e : NEvent) : Notifier :=
  match e with
  | NSend armed now rnd userId type message priority =>
      fst (send_notification armed now rnd userId type message priority n)
  | NFire now i => fire_timer now i n
  | NStatus _ => n
  | NAlert rnd alertType severity details =>
      fst (security_alert rnd alertType severity details n)
  end.

Definition nrun (n : Notifier) (es : list NEvent) : Notifier :=
  fold_left nstep es n.

(** ** Vocabulary of the further properties *)



(** The lines and timers that carry a given notification id. *)
Definition is_sent (nid : string) (e : NLogEntry) : bool :=
  match e with
  | LogNotificationSent i _ _ _ => String.eqb i nid
  | _ => false
  end.

Definition is_delivered (nid : string) (e : NLogEntry) : bool :=
  match e with
  | LogNotificationDelivered i _ => String.eqb i nid
  | _ => false
  end.

Definition is_timer_of (nid : string) (t : Timer) : bool :=
  String.eqb (t_notificationId t) nid.

Definition count_sent (nid : string) (n : Notifier) : nat :=
  length (List.filter (is_sent nid) (nlog n)).

Definition count_delivered (nid : string) (n : Notifier) : nat :=
  length (List.filter (is_delivered nid) (nlog n)).

Definition count_waiting (nid : string) (n : Notifier) : nat :=
  length (List.filter (is_timer_of nid) (timers n)).

(** Two rows that differ at most in their balance. *)
Definition same_identity (a b : Account) : Prop :=
  user_id a = user_id b
  /\ account_number a = account_number b
  /\ account_type a = account_type b.

(** Every row of [st] is still in [st'], with the same owner, number and
    type. *)
Definition rows_kept (st st' : Store) : Prop :=
  forall k a, accounts st !! k = Some a ->
              exists a', accounts st' !! k = Some a' /\ same_identity a a'.

(** A waiting write designates a row of its caller. *)
Definition pending_hits (H : Host) (st : Store) (p : PendingUpdate) : Prop :=
  exists k a, pg_int4_in H (p_accountId p) = Some k
              /\ accounts st !! k = Some a
              /\ user_id a = p_userId p.

Definition string_repeat (c : ascii) (n : nat) : string :=
  String.string_of_list_ascii (replicate n c).

Fixpoint string_drop (n : nat) (s : string) : string :=
  match n, s with
  | S m, String _ r => string_drop m r
  | _, _ => s
  end.

(** The last [n] characters of [s]. *)
Definition string_suffix (n : nat) (s : string) : string :=
  string_drop (String.length s - n) s.

(** Some digit of [s] is followed by four digits. *)
Fixpoint five_digit_run (s : string) : bool :=
  match s with
  | EmptyString => false
  | String c r => (is_digit c && four_digits r) || five_digit_run r
  end.

(** What one step can do to the store: nothing, one row inserted at the
    next id, or the balance of one row replaced. *)
Inductive StoreChange (st st' : Store) : Prop :=
  | ChSame : st' = st -> StoreChange st st'
  | ChInsert (acct : Account) :
      accounts st !! next_account_id st = None ->
      st' = {| accounts := <[next_account_id st := acct]> (accounts st);
               next_account_id := next_account_id st + 1 |} ->
      StoreChange st st'
  | ChBalance (k : Z) (a : Account) (b : float) :
      accounts st !! k = Some a ->
      st' = {| accounts := <[k := set_balance b a]> (accounts st);
               next_account_id := next_account_id st |} ->
      StoreChange st st'.

Definition all_pending_hit (H : Host) (sys : System) : Prop :=
  Forall (pending_hits H (db (svc sys))) (inflight sys).

(** * Properties *)

(** ** Comparisons of numbers *)

Lemma SFcompare_antisym x y c :
  SFcompare x y = Some c -> SFcompare y x = Some (CompOpp c).
Proof.
  destruct x as [sx|sx| |sx mx ex], y as [sy|sy| |sy my ey]; simpl;
    try discriminate;
    try (intros [= <-]; try destruct sx; try destruct sy; reflexivity).
  intros [= <-]. f_equal.
  destruct sx, sy; try reflexivity;
    rewrite (Z.compare_antisym ey ex);
    destruct (ey ?= ex) eqn:E; simpl; try reflexivity;
    rewrite !Pos.compare_cont_spec; simpl;
    rewrite (Pos.compare_antisym my mx);
    destruct (my ?= mx)%positive; reflexivity.
Qed.

Lemma SFcompare_refl x : x <> S754_nan -> SFcompare x x = Some Eq.
Proof.
  destruct x as [s|s| |s m e]; simpl; try done.
  - by destruct s.
  - intros _. f_equal. rewrite Z.compare_refl, Pos.compare_cont_spec.
    rewrite Pos.compare_refl. by destruct s.
Qed.

Lemma SFcompare_nan_l y : SFcompare S754_nan y = None.
Proof. by destruct y. Qed.

Lemma SFcompare_nan_r x : SFcompare x S754_nan = None.
Proof. by destruct x. Qed.

Lemma is_nan_spec (x : float) :
  PrimFloat.is_nan x = true <-> Prim2SF x = S754_nan.
Proof.
  unfold PrimFloat.is_nan. rewrite FloatAxioms.eqb_spec. unfold SFeqb. split.
  - intros Hn.
    destruct (Prim2SF x) as [s|s| |s m e] eqn:E; try done;
      rewrite SFcompare_refl in Hn by discriminate; discriminate Hn.
  - intros ->. done.
Qed.

(** [x < y] excludes every other order of [x] and [y], and NaN. *)
Lemma ltb_true_facts (x y : float) :
  (x <? y)%float = true ->
  (y <? x)%float = false /\ (y <=? x)%float = false
  /\ (x =? y)%float = false /\ (y =? x)%float = false
  /\ PrimFloat.is_nan x = false /\ PrimFloat.is_nan y = false.
Proof.
  intros Hlt.
  assert (PrimFloat.is_nan x = false /\ PrimFloat.is_nan y = false) as [Hx Hy].
  { split.
    - destruct (PrimFloat.is_nan x) eqn:E; [|done].
      apply is_nan_spec in E. rewrite FloatAxioms.ltb_spec, E in Hlt.
      unfold SFltb in Hlt. by rewrite SFcompare_nan_l in Hlt.
    - destruct (PrimFloat.is_nan y) eqn:E; [|done].
      apply is_nan_spec in E. rewrite FloatAxioms.ltb_spec, E in Hlt.
      unfold SFltb in Hlt. by rewrite SFcompare_nan_r in Hlt. }
  revert Hlt. rewrite !FloatAxioms.ltb_spec, !FloatAxioms.leb_spec, !FloatAxioms.eqb_spec.
  unfold SFltb, SFleb, SFeqb.
  destruct (SFcompare (Prim2SF x) (Prim2SF y)) as [[]|] eqn:E; try done.
  intros _. rewrite (SFcompare_antisym _ _ _ E). simpl. done.
Qed.

Lemma leb_true_not_gt (x y : float) :
  (x <=? y)%float = true -> (y <? x)%float = false.
Proof.
  rewrite FloatAxioms.ltb_spec, FloatAxioms.leb_spec. unfold SFltb, SFleb.
  destruct (SFcompare (Prim2SF x) (Prim2SF y)) as [[]|] eqn:E; try done;
    intros _; by rewrite (SFcompare_antisym _ _ _ E).
Qed.

(** Every comparison with NaN is false. *)
Lemma nan_compares_false (x k : float) :
  PrimFloat.is_nan x = true ->
  (x <? k)%float = false /\ (k <? x)%float = false /\ (x <=? k)%float = false.
Proof.
  intros Hn. apply is_nan_spec in Hn.
  rewrite !FloatAxioms.ltb_spec, FloatAxioms.leb_spec, Hn. unfold SFltb, SFleb.
  by rewrite SFcompare_nan_l, SFcompare_nan_r.
Qed.

Lemma positive_truthy (q : float) :
  (0 <? q)%float = true -> truthy (JNum q) = true.
Proof.
  intros Hq. destruct (ltb_true_facts _ _ Hq) as (_ & _ & _ & He & _ & Hn).
  simpl. by rewrite He, Hn.
Qed.


Lemma typeof_number (v : JsValue) :
  String.eqb (typeof v) "number" = true -> exists n, v = JNum n.
Proof. destruct v; simpl; try discriminate. eauto. Qed.

Lemma includes_string (l : list string) (v : JsValue) :
  includes l v = true -> exists s, v = JStr s /\ existsb (String.eqb s) l = true.
Proof. destruct v; simpl; try discriminate. eauto. Qed.

Lemma includes_truthy (l : list string) (v : JsValue) :
  ~ In "" l -> includes l v = true -> truthy v = true.
Proof.
  intros Hl. destruct v as [| | | |s|]; simpl; try done.
  intros Hin. destruct (String.eqb s "") eqn:E; [|done].
  apply String.eqb_eq in E as ->.
  apply existsb_exists in Hin as (x & Hx & Heq).
  apply String.eqb_eq in Heq as <-. done.
Qed.

Lemma account_type_truthy (ty : JsValue) :
  includes ["checking"; "savings"] ty = true -> truthy ty = true.
Proof.
  apply includes_truthy. simpl. intros [?|[?|[]]]; discriminate.
Qed.

(** ** What each handler does to the store *)

Lemma get_account_db H c accountId s :
  db (fst (get_account H c accountId s)) = db s.
Proof.
  unfold get_account, authenticateToken.
  destruct c; simpl; try done.
  repeat (case_match; simpl; try done).
Qed.

Lemma patch_begin_db H c accountId amount transactionType s :
  db (fst (patch_begin H c accountId amount transactionType s)) = db s.
Proof.
  unfold patch_begin, authenticateToken.
  destruct c; simpl; try done.
  repeat (case_match; simpl; try done).
Qed.

Lemma db_select_owned H st accountId uid k a :
  pg_int4_in H accountId = Some k ->
  accounts st !! k = Some a ->
  user_id a = uid ->
  db_select H st accountId uid = Returned (Some (k, a)).
Proof.
  intros Hk Ha Hu. unfold db_select. rewrite Hk, Ha.
  by rewrite (proj2 (Z.eqb_eq _ _) Hu).
Qed.

Lemma db_update_owned H st b accountId uid k a :
  pg_int4_in H accountId = Some k ->
  accounts st !! k = Some a ->
  user_id a = uid ->
  db_update H st b accountId uid
  = Returned {| accounts := <[k := set_balance b a]> (accounts st);
                next_account_id := next_account_id st |}.
Proof.
  intros Hk Ha Hu. unfold db_update. rewrite Hk, Ha.
  by rewrite (proj2 (Z.eqb_eq _ _) Hu).
Qed.

(** ** Account creation *)

Lemma create_validates_range H uid rnd ty (q : float) s :
  includes ["checking"; "savings"] ty = true ->
  (0 <? q)%float = true -> (q <=? MAX_DEPOSIT)%float = true ->
  accounts (db s) !! next_account_id (db s) = None ->
  create_account H (ValidToken uid) rnd ty (JNum q) s
  = (logged (LogNewAccount (next_account_id (db s)) uid ty)
       (with_db {| accounts :=
                     <[next_account_id (db s) :=
                         {| user_id := uid;
                            account_number := padStart0 10 (pretty rnd);
                            account_type := string_of ty;
                            balance := q |}]> (accounts (db s));
                   next_account_id := next_account_id (db s) + 1 |} s),
     json 201 (CreatedBody (next_account_id (db s))
                 (mask (padStart0 10 (pretty rnd))) ty (JNum q))).
Proof.
  intros Hty Hpos Hmax Hfree. unfold create_account, authenticateToken.
  rewrite Hty, (account_type_truthy ty Hty), (positive_truthy q Hpos).
  unfold lt_num, gt_num. cbn [ToNumber].
  destruct (ltb_true_facts _ _ Hpos) as (-> & _).
  rewrite (leb_true_not_gt _ _ Hmax).
  cbn [negb orb]. unfold db_insert. cbn [numeric_param]. by rewrite Hfree.
Qed.

Lemma create_rejects_negative H uid rnd ty (q : float) s :
  (q <? 0)%float = true ->
  exists msg, create_account H (ValidToken uid) rnd ty (JNum q) s
              = (s, json 400 (ErrorBody msg)).
Proof.
  intros Hq. unfold create_account, authenticateToken.
  destruct (negb (truthy ty) || negb (includes ["checking"; "savings"] ty));
    [eauto|].
  unfold lt_num. cbn [ToNumber]. rewrite Hq, orb_true_r. simpl. eauto.
Qed.

Lemma create_rejects_above_max H uid rnd ty (q : float) s :
  (MAX_DEPOSIT <? q)%float = true ->
  exists msg, create_account H (ValidToken uid) rnd ty (JNum q) s
              = (s, json 400 (ErrorBody msg)).
Proof.
  intros Hq. unfold create_account, authenticateToken.
  destruct (negb (truthy ty) || negb (includes ["checking"; "savings"] ty));
    [eauto|].
  unfold gt_num. cbn [ToNumber]. rewrite Hq, !orb_true_r. simpl. eauto.
Qed.

(** A deposit that is not a number to JavaScript passes the range test,
    and what the server reads in it is stored, whatever its sign. *)
Lemma nan_deposit_is_inserted H uid rnd ty dep (b : float) s :
  includes ["checking"; "savings"] ty = true ->
  truthy dep = true ->
  PrimFloat.is_nan (ToNumber (StringToNumber H) dep) = true ->
  numeric_param H dep = Some b ->
  accounts (db s) !! next_account_id (db s) = None ->
  create_account H (ValidToken uid) rnd ty dep s
  = (logged (LogNewAccount (next_account_id (db s)) uid ty)
       (with_db {| accounts :=
                     <[next_account_id (db s) :=
                         {| user_id := uid;
                            account_number := padStart0 10 (pretty rnd);
                            account_type := string_of ty;
                            balance := b |}]> (accounts (db s));
                   next_account_id := next_account_id (db s) + 1 |} s),
     json 201 (CreatedBody (next_account_id (db s))
                 (mask (padStart0 10 (pretty rnd))) ty dep)).
Proof.
  intros Hty Ht Hnan Hb Hfree. unfold create_account, authenticateToken.
  rewrite Hty, (account_type_truthy ty Hty), Ht.
  unfold lt_num, gt_num.
  destruct (nan_compares_false _ 0%float Hnan) as (-> & _).
  destruct (nan_compares_false _ MAX_DEPOSIT Hnan) as (_ & -> & _).
  cbn [negb orb]. unfold db_insert. by rewrite Hb, Hfree.
Qed.

(** C1.  The stored balance can be negative.  The deposit "-0x10" is not
    a number to JavaScript, so it is neither below 0 nor above
    1,000,000 and passes the range test of the creation; the server
    reads -16 in it, and the creation is answered 201 with -16 as the
    balance of the new account. *)
Theorem C1_negative_deposit_is_stored :
  truthy (JStr "-0x10") = true
  /\ PrimFloat.is_nan (ToNumber (StringToNumber plain_host) (JStr "-0x10"))
     = true
  /\ numeric_param plain_host (JStr "-0x10") = Some (-16)%float
  /\ snd (create_account plain_host alice 123456789 (JStr "checking")
            (JStr "-0x10") (svc initial))
     = json 201 (CreatedBody 1 "******6789" (JStr "checking") (JStr "-0x10"))
  /\ stored_balance
       (fst (create_account plain_host alice 123456789 (JStr "checking")
               (JStr "-0x10") (svc initial))) 1
     = Some (-16)%float
  /\ (-16 <? 0)%float = true.
Proof.
  repeat split; vm_compute; reflexivity.
Qed.

(** C8.  A deposit of exactly 0 lies in [0, 1,000,000], yet the
    creation answers 400 "Invalid initial deposit amount" and stores
    nothing: [!initialDeposit] holds of 0. *)
Theorem C8_zero_deposit_rejected :
  (forall H uid rnd s,
      create_account H (ValidToken uid) rnd (JStr "checking") (JNum 0) s
      = (s, json 400 (ErrorBody "Invalid initial deposit amount")))
  /\ (forall H uid rnd s,
      create_account H (ValidToken uid) rnd (JStr "savings") (JNum 0) s
      = (s, json 400 (ErrorBody "Invalid initial deposit amount")))
  /\ responses plain_host initial
       [ECreateAccount alice 123456789 (JStr "checking") (JNum 0)]
     = [Some (json 400 (ErrorBody "Invalid initial deposit amount"))]
  /\ accounts (db (svc (run plain_host initial
       [ECreateAccount alice 123456789 (JStr "checking") (JNum 0)]))) = ∅.
Proof.
  repeat split; reflexivity.
Qed.

(** ** Balance adjustments, one request at a time *)


Lemma patch_begin_insufficient H uid accountId n ty s k a :
  truthy (JNum n) = true ->
  includes ["credit"; "debit"] ty = true ->
  db_select H (db s) accountId uid = Returned (Some (k, a)) ->
  (newBalance_of (balance a) ty (JNum n) <? 0)%float = true ->
  patch_begin H (ValidToken uid) accountId (JNum n) ty s
  = (logged (LogInsufficientFunds accountId (balance a) (JNum n) ty) s,
     Finished (json 400 (ErrorBody "Insufficient funds"))).
Proof.
  intros Ht Hi Hs Hlt. unfold patch_begin, authenticateToken.
  rewrite Ht, Hi, Hs. cbn [typeof String.eqb Ascii.eqb Bool.eqb negb orb].
  by rewrite Hlt.
Qed.

(** C7.  An amount of zero fails the validation before the store is
    read and changes nothing; a negative amount does not: debiting -50
    from Alice's account of 100.00 is answered 200 and stores 150.00. *)
Theorem C7_negative_amount_not_rejected :
  (forall H uid accountId ty s,
      patch_begin H (ValidToken uid) accountId (JNum 0) ty s
      = (s, Finished (json 400 (ErrorBody "Invalid amount"))))
  /\ snd (patch_balance plain_host alice "1" (JNum (-50)) (JStr "debit")
            (svc opened_100))
     = json 200 (BalanceBody true 150 (JStr "debit") (JNum (-50)))
  /\ stored_balance
       (fst (patch_balance plain_host alice "1" (JNum (-50)) (JStr "debit")
               (svc opened_100))) 1
     = Some 150%float.
Proof.
  split; [|split].
  - reflexivity.
  - vm_compute. reflexivity.
  - vm_compute. reflexivity.
Qed.




(** ** The write of a balance adjustment *)

(** C4, as stated, fails.  Account 1 holds 70.00 when the debit of 80.00
    resumes with the 100.00 it read earlier; its [UPDATE] is answered
    200 and stores 20.00. *)
Lemma C4_counterexample :
  exists p,
    inflight one_write_pending !! 0%nat = Some p
    /\ p_currentBalance p = 100%float
    /\ balance_of one_write_pending 1 = Some 70%float
    /\ snd (step plain_host one_write_pending (EPatchCommit 0))
       = Some (json 200 (BalanceBody true 20 (JStr "debit") (JNum 80)))
    /\ balance_of (fst (step plain_host one_write_pending (EPatchCommit 0))) 1
       = Some 20%float.
Proof.
  eexists. split; [vm_compute; reflexivity|].
  repeat split; vm_compute; reflexivity.
Qed.

(** C4, amended.  The write of an adjustment is an unconditional
    [UPDATE]: when the row of the caller exists, the new balance
    computed at the read is stored and answered 200 whatever balance the
    row holds at that moment; and whatever the store, the write is
    answered 200 or 500, never a conflict, and is never tried again. *)
Theorem C4_write_is_unconditional H p s k a :
  pg_int4_in H (p_accountId p) = Some k ->
  accounts (db s) !! k = Some a ->
  user_id a = p_userId p ->
  patch_commit H p s
  = (logged (LogBalanceUpdated (p_accountId p) (p_currentBalance p)
               (p_newBalance p) (p_transactionType p) (p_amount p))
       (with_db {| accounts := <[k := set_balance (p_newBalance p) a]>
                                 (accounts (db s));
                   next_account_id := next_account_id (db s) |} s),
     json 200 (BalanceBody true (p_newBalance p) (p_transactionType p)
                 (p_amount p)))
  /\ (forall s', status (snd (patch_commit H p s')) = 200
                 \/ status (snd (patch_commit H p s')) = 500).
Proof.
  intros Hk Ha Hu. split.
  - unfold patch_commit.
    by rewrite (db_update_owned H (db s) _ _ _ k a Hk Ha Hu).
  - intros s'. unfold patch_commit.
    destruct (db_update H (db s') _ _ _); simpl; auto.
Qed.

Lemma C4_witness :
  snd (patch_commit plain_host
         {| p_accountId := "1"; p_userId := 1; p_currentBalance := 100;
            p_newBalance := 20; p_transactionType := JStr "debit";
            p_amount := JNum 80 |}
         (svc one_write_pending))
  = json 200 (BalanceBody true 20 (JStr "debit") (JNum 80)).
Proof.
  pose proof (C4_write_is_unconditional plain_host
                {| p_accountId := "1"; p_userId := 1; p_currentBalance := 100;
                   p_newBalance := 20; p_transactionType := JStr "debit";
                   p_amount := JNum 80 |}
                (svc one_write_pending) 1
                {| user_id := 1; account_number := "0123456789";
                   account_type := "checking"; balance := 70 |}) as Hw.
  destruct Hw as [E _]; [reflexivity | reflexivity | reflexivity |].
  rewrite E. reflexivity.
Defined.

(** ** Callers that do not own the account *)

(** C6, as stated, fails.  Bob does not own account 1, and his
    adjustment of it is answered 404 "Account not found", not a denial;
    nor does he own an account 2, and his read of it is answered 404 as
    well, whether account 2 is Alice's or does not exist. *)
Lemma C6_counterexample :
  not_owner plain_host (svc alice_twice) 2 "1"
  /\ snd (patch_balance plain_host bob "1" (JNum 10) (JStr "credit")
            (svc alice_twice))
     = json 404 (ErrorBody "Account not found")
  /\ not_owner plain_host (svc alice_twice) 2 "2"
  /\ snd (get_account plain_host bob "2" (svc alice_twice))
     = json 404 (ErrorBody "Account not found")
  /\ not_owner plain_host (svc opened_100) 2 "2"
  /\ snd (get_account plain_host bob "2" (svc opened_100))
     = json 404 (ErrorBody "Account not found").
Proof.
  assert (forall sys id,
            (forall k a, pg_int4_in plain_host id = Some k ->
                         accounts (db (svc sys)) !! k = Some a ->
                         user_id a = 1) ->
            not_owner plain_host (svc sys) 2 id) as Hno.
  { intros sys id Hall k a Hk Ha Hu.
    specialize (Hall k a Hk Ha). rewrite Hall in Hu. discriminate Hu. }
  repeat split; try (vm_compute; reflexivity); apply Hno; intros k a Hk Ha;
    vm_compute in Hk; injection Hk as <-; vm_compute in Ha;
    try discriminate Ha; by injection Ha as <-.
Qed.

Lemma db_select_not_owner H s uid accountId :
  not_owner H s uid accountId ->
  db_select H (db s) accountId uid
  = match pg_int4_in H accountId with
    | None => Raised
    | Some _ => Returned None
    end.
Proof.
  intros Hno. unfold db_select.
  destruct (pg_int4_in H accountId) as [k|] eqn:Ek; [|done].
  destruct (accounts (db s) !! k) as [a|] eqn:Ea; [|done].
  destruct (user_id a =? uid) eqn:Eu; [|done].
  apply Z.eqb_eq in Eu. by destruct (Hno k a Ek Ea).
Qed.

Lemma nonowner_answers H uid accountId amount ty s :
  not_owner H s uid accountId ->
  snd (get_account H (ValidToken uid) accountId s)
  = get_answer_nonowner H uid accountId
  /\ snd (patch_balance H (ValidToken uid) accountId amount ty s)
     = patch_answer_nonowner H accountId amount ty
  /\ db (fst (patch_balance H (ValidToken uid) accountId amount ty s)) = db s.
Proof.
  intros Hno. pose proof (db_select_not_owner H s uid accountId Hno) as Hsel.
  split; [|split].
  - unfold get_account, get_answer_nonowner, authenticateToken.
    rewrite Hsel. repeat (case_match; simpl; try done).
  - unfold patch_balance, patch_begin, patch_answer_nonowner, authenticateToken.
    rewrite Hsel.
    destruct (negb (truthy amount)
              || negb (String.eqb (typeof amount) "number")); [done|].
    destruct (negb (includes ["credit"; "debit"] ty)); [done|].
    by destruct (pg_int4_in H accountId).
  - unfold patch_balance, patch_begin, authenticateToken.
    rewrite Hsel.
    destruct (negb (truthy amount)
              || negb (String.eqb (typeof amount) "number")); [done|].
    destruct (negb (includes ["credit"; "debit"] ty)); [done|].
    by destruct (pg_int4_in H accountId).
Qed.

(** C6, amended.  For a caller that does not own account X, the answer
    of the read and the answer of the adjustment are the same in any two
    stores, hence do not tell whether X exists.  For an id made of
    digits, the read is denied (403 "Access denied") when [parseInt] of
    X, a binary64 number, differs from the caller's own id; otherwise it
    is answered 404 "Account not found", or 500 where the database
    refuses the id.  The adjustment, once its body is valid, is answered
    404 "Account not found", or 500 where the database refuses the id,
    and the store is left as it was. *)
Theorem C6_nonowner_answers H uid accountId amount ty s1 s2 :
  not_owner H s1 uid accountId ->
  not_owner H s2 uid accountId ->
  snd (get_account H (ValidToken uid) accountId s1)
  = snd (get_account H (ValidToken uid) accountId s2)
  /\ snd (patch_balance H (ValidToken uid) accountId amount ty s1)
     = snd (patch_balance H (ValidToken uid) accountId amount ty s2)
  /\ snd (get_account H (ValidToken uid) accountId s1)
     = get_answer_nonowner H uid accountId
  /\ snd (patch_balance H (ValidToken uid) accountId amount ty s1)
     = patch_answer_nonowner H accountId amount ty
  /\ db (fst (patch_balance H (ValidToken uid) accountId amount ty s1))
     = db s1.
Proof.
  intros Hno1 Hno2.
  destruct (nonowner_answers H uid accountId amount ty s1 Hno1)
    as (Eg1 & Ep1 & Ed1).
  destruct (nonowner_answers H uid accountId amount ty s2 Hno2)
    as (Eg2 & Ep2 & _).
  repeat split; congruence.
Qed.

Lemma C6_witness :
  snd (get_account plain_host bob "1" (svc alice_twice))
  = snd (get_account plain_host bob "1" (svc initial))
  /\ snd (get_account plain_host bob "1" (svc alice_twice))
     = json 403 (ErrorBody "Access denied")
  /\ snd (patch_balance plain_host bob "1" (JNum 10) (JStr "credit")
            (svc alice_twice))
     = json 404 (ErrorBody "Account not found").
Proof.
  assert (not_owner plain_host (svc alice_twice) 2 "1") as Hno1.
  { intros k a Hk Ha Hu. vm_compute in Hk. injection Hk as <-.
    vm_compute in Ha. injection Ha as <-. discriminate Hu. }
  assert (not_owner plain_host (svc initial) 2 "1") as Hno2.
  { intros k a Hk Ha Hu. vm_compute in Ha. discriminate Ha. }
  destruct (C6_nonowner_answers plain_host 2 "1" (JNum 10) (JStr "credit")
              (svc alice_twice) (svc initial) Hno1 Hno2)
    as (Esame & _ & Eg & Ep & _).
  split; [exact Esame|]. split.
  - unfold bob. rewrite Eg. reflexivity.
  - unfold bob. rewrite Ep. reflexivity.
Defined.

(** ** The transaction service *)

Lemma post_transaction_accepts H rnd fromAccount toAccount (q : float) :
  truthy fromAccount = true ->
  truthy toAccount = true ->
  (0 <? q)%float = true ->
  post_transaction H rnd fromAccount toAccount (JNum q)
  = ([LogTransactionProcessed (String.append "txn_" rnd) fromAccount
        toAccount (JNum q)],
     json 201 (TransactionBody (String.append "txn_" rnd) "completed"
                 fromAccount toAccount (JNum q))).
Proof.
  intros Hf Ht Hq. unfold post_transaction.
  rewrite Hf, Ht, (positive_truthy q Hq).
  unfold le_num. cbn [ToNumber].
  destruct (ltb_true_facts _ _ Hq) as (_ & -> & _). done.
Qed.

Lemma post_transaction_keeps_ledger H sys rnd fromAccount toAccount amount :
  svc (fst (step H sys (EPostTransaction rnd fromAccount toAccount amount)))
  = svc sys
  /\ inflight (fst (step H sys (EPostTransaction rnd fromAccount toAccount
                                  amount)))
     = inflight sys.
Proof.
  simpl. by destruct (post_transaction H rnd fromAccount toAccount amount).
Qed.

(** C2, as stated, fails.  With account 1 at 60.00 and account 2 at
    10.00, the transfer of 50.00 from 1 to 2 is answered with a record
    whose status is "completed", and the accounts still hold 60.00 and
    10.00. *)
Lemma C2_counterexample :
  balance_of two_accounts 1 = Some 60%float
  /\ balance_of two_accounts 2 = Some 10%float
  /\ snd (step plain_host two_accounts
            (EPostTransaction "k3j9x2m1q" (JStr "1") (JStr "2") (JNum 50)))
     = Some (json 201 (TransactionBody "txn_k3j9x2m1q" "completed" (JStr "1")
                         (JStr "2") (JNum 50)))
  /\ balance_of (fst (step plain_host two_accounts
            (EPostTransaction "k3j9x2m1q" (JStr "1") (JStr "2") (JNum 50)))) 1
     = Some 60%float
  /\ balance_of (fst (step plain_host two_accounts
            (EPostTransaction "k3j9x2m1q" (JStr "1") (JStr "2") (JNum 50)))) 2
     = Some 10%float
  /\ (60 =? 60 - 50)%float = false
  /\ (10 =? 10 + 50)%float = false.
Proof.
  repeat split; vm_compute; reflexivity.
Qed.

(** C2, amended.  Every transfer request that names a source and a
    destination and carries a positive amount is answered 201 with a
    record of status "completed" that repeats the request; the account
    service is left as it was, so no balance changes. *)
Theorem C2_transfer_completes_without_moving_funds
    H sys rnd fromAccount toAccount (q : float) :
  truthy fromAccount = true ->
  truthy toAccount = true ->
  (0 <? q)%float = true ->
  snd (step H sys (EPostTransaction rnd fromAccount toAccount (JNum q)))
  = Some (json 201 (TransactionBody (String.append "txn_" rnd) "completed"
                      fromAccount toAccount (JNum q)))
  /\ svc (fst (step H sys (EPostTransaction rnd fromAccount toAccount
                             (JNum q))))
     = svc sys
  /\ (forall k,
        balance_of (fst (step H sys (EPostTransaction rnd fromAccount toAccount
                                       (JNum q)))) k
        = balance_of sys k).
Proof.
  intros Hf Ht Hq.
  pose proof (post_transaction_keeps_ledger H sys rnd fromAccount toAccount
                (JNum q)) as [Hs _].
  split; [|split].
  - simpl. by rewrite (post_transaction_accepts H rnd _ _ q Hf Ht Hq).
  - done.
  - intros k. unfold balance_of. by rewrite Hs.
Qed.

Lemma C2_witness :
  snd (step plain_host two_accounts
         (EPostTransaction "k3j9x2m1q" (JStr "1") (JStr "2") (JNum 50)))
  = Some (json 201 (TransactionBody "txn_k3j9x2m1q" "completed" (JStr "1")
                      (JStr "2") (JNum 50)))
  /\ balance_of (fst (step plain_host two_accounts
         (EPostTransaction "k3j9x2m1q" (JStr "1") (JStr "2") (JNum 50)))) 1
     = balance_of two_accounts 1.
Proof.
  destruct (C2_transfer_completes_without_moving_funds plain_host two_accounts
              "k3j9x2m1q" (JStr "1") (JStr "2") 50)
    as (Er & _ & Eb); [reflexivity | reflexivity | reflexivity |].
  split; [exact Er | exact (Eb 1)].
Defined.

(** C3, as stated, fails.  No account 9 exists, and the transfer of
    50.00 from account 1 to account 9 is answered with a record whose
    status is "completed"; the later query of that record reports
    "completed" as well. *)
Lemma C3_counterexample :
  balance_of two_accounts 9 = None
  /\ snd (step plain_host two_accounts
            (EPostTransaction "k3j9x2m1q" (JStr "1") (JStr "9") (JNum 50)))
     = Some (json 201 (TransactionBody "txn_k3j9x2m1q" "completed" (JStr "1")
                         (JStr "9") (JNum 50)))
  /\ snd (step plain_host two_accounts (EGetTransaction "txn_k3j9x2m1q"))
     = Some (json 200 (TransactionInfoBody "txn_k3j9x2m1q" "completed" 150
                         "Account transfer")).
Proof.
  repeat split; vm_compute; reflexivity.
Qed.

(** C3, amended.  A transfer request never changes a balance, so the
    source account holds its pre-transfer balance afterwards, whether or
    not the destination exists; no debit and no compensating credit is
    applied.  The request is answered either 400 "Invalid transaction
    data" or 201 with a record of status "completed", and the query of a
    record reports "completed" for every id: no record is ever "failed"
    with reason "not_found". *)
Theorem C3_transfer_never_fails_at_credit :
  (forall H sys rnd fromAccount toAccount amount k,
      balance_of (fst (step H sys (EPostTransaction rnd fromAccount toAccount
                                     amount))) k
      = balance_of sys k)
  /\ (forall H rnd fromAccount toAccount amount,
        snd (post_transaction H rnd fromAccount toAccount amount)
        = json 400 (ErrorBody "Invalid transaction data")
        \/ snd (post_transaction H rnd fromAccount toAccount amount)
           = json 201 (TransactionBody (String.append "txn_" rnd) "completed"
                         fromAccount toAccount amount))
  /\ (forall transactionId,
        get_transaction transactionId
        = json 200 (TransactionInfoBody transactionId "completed" 150
                      "Account transfer")).
Proof.
  split; [|split].
  - intros. unfold balance_of.
    by rewrite (proj1 (post_transaction_keeps_ledger H sys rnd fromAccount
                         toAccount amount)).
  - intros. unfold post_transaction. case_match; simpl; auto.
  - done.
Qed.

(** C9, as stated, fails.  The transfer of 50.00 from account 1 to
    account 1 is not rejected: it is answered 201 with a record of
    status "completed". *)
Lemma C9_counterexample :
  snd (post_transaction plain_host "k3j9x2m1q" (JStr "1") (JStr "1") (JNum 50))
  = json 201 (TransactionBody "txn_k3j9x2m1q" "completed" (JStr "1") (JStr "1")
                (JNum 50)).
Proof. vm_compute. reflexivity. Qed.

(** C9, amended.  A transfer request whose amount is a number that is
    not positive, or whose source, destination or amount is missing, is
    rejected at once, 400 "Invalid transaction data";
    the answer of a transfer request is the same in every state of the
    system and the request leaves the account service as it was, so no
    store is accessed.  A request whose source equals its destination is
    not rejected on that ground. *)
Theorem C9_nonpositive_amount_rejected H rnd fromAccount toAccount
    (q : float) :
  (q <=? 0)%float = true ->
  post_transaction H rnd fromAccount toAccount (JNum q)
  = ([LogInvalidTransaction fromAccount toAccount (JNum q)],
     json 400 (ErrorBody "Invalid transaction data"))
  /\ (forall sys1 sys2 amount,
        snd (step H sys1 (EPostTransaction rnd fromAccount toAccount amount))
        = snd (step H sys2 (EPostTransaction rnd fromAccount toAccount amount)))
  /\ (forall sys amount,
        svc (fst (step H sys (EPostTransaction rnd fromAccount toAccount
                                amount)))
        = svc sys)
  /\ (forall account (a : float),
        truthy account = true -> (0 <? a)%float = true ->
        snd (post_transaction H rnd account account (JNum a))
        = json 201 (TransactionBody (String.append "txn_" rnd) "completed"
                      account account (JNum a)))
  /\ (forall amount,
        truthy fromAccount && truthy toAccount && truthy amount = false ->
        post_transaction H rnd fromAccount toAccount amount
        = ([LogInvalidTransaction fromAccount toAccount amount],
           json 400 (ErrorBody "Invalid transaction data"))).
Proof.
  intros Hq. split; [|split; [|split; [|split]]].
  5:{ intros amount Hm. unfold post_transaction.
      destruct (truthy fromAccount), (truthy toAccount), (truthy amount);
        done. }
  - unfold post_transaction.
    unfold le_num. cbn [ToNumber]. by rewrite Hq, !orb_true_r.
  - intros. simpl.
    by destruct (post_transaction H rnd fromAccount toAccount amount).
  - intros. apply post_transaction_keeps_ledger.
  - intros account a Ht Ha.
    by rewrite (post_transaction_accepts H rnd account account a Ht Ht Ha).
Qed.

Lemma C9_witness :
  post_transaction plain_host "k3j9x2m1q" (JStr "1") (JStr "2") (JNum (-50))
  = ([LogInvalidTransaction (JStr "1") (JStr "2") (JNum (-50))],
     json 400 (ErrorBody "Invalid transaction data"))
  /\ snd (post_transaction plain_host "k3j9x2m1q" (JStr "7") (JStr "7")
            (JNum 50))
     = json 201 (TransactionBody "txn_k3j9x2m1q" "completed" (JStr "7")
                   (JStr "7") (JNum 50)).
Proof.
  assert ((-50 <=? 0)%float = true) as Hq by reflexivity.
  destruct (C9_nonpositive_amount_rejected plain_host "k3j9x2m1q" (JStr "1")
              (JStr "2") (-50)%float Hq) as (Er & _ & _ & Hsame & _).
  split; [exact Er|].
  apply (Hsame (JStr "7") 50%float); reflexivity.
Defined.

(** ** The store along a schedule *)

Lemma get_account_change H c accountId s :
  StoreChange (db s) (db (fst (get_account H c accountId s))).
Proof. apply ChSame, get_account_db. Qed.

Lemma create_account_change H c rnd ty dep s :
  StoreChange (db s) (db (fst (create_account H c rnd ty dep s))).
Proof.
  unfold create_account, authenticateToken.
  destruct c as [| |uid]; try by apply ChSame.
  repeat (case_match; try by apply ChSame).
  match goal with E : db_insert _ _ _ _ _ _ = _ |- _ =>
    unfold db_insert in E; revert E end.
  repeat (case_match; try done).
  intros [= <- <-]. simpl. by eapply ChInsert.
Qed.

Lemma patch_begin_change H c accountId amount ty s :
  StoreChange (db s) (db (fst (patch_begin H c accountId amount ty s))).
Proof. apply ChSame, patch_begin_db. Qed.

Lemma patch_commit_change H p s :
  StoreChange (db s) (db (fst (patch_commit H p s))).
Proof.
  unfold patch_commit, db_update.
  repeat (case_match; simplify_eq; try by apply ChSame).
  simpl. by eapply ChBalance.
Qed.

Lemma step_change H sys e :
  StoreChange (db (svc sys)) (db (svc (fst (step H sys e)))).
Proof.
  destruct e; simpl.
  - pose proof (get_account_change H c accountId (svc sys)).
    by destruct (get_account _ _ _ _).
  - pose proof (create_account_change H c rnd accountType initialDeposit
                  (svc sys)).
    by destruct (create_account _ _ _ _ _ _).
  - pose proof (patch_begin_change H c accountId amount transactionType
                  (svc sys)).
    by destruct (patch_begin _ _ _ _ _ _) as [? []].
  - destruct (inflight sys !! i) as [p|]; [|by apply ChSame].
    pose proof (patch_commit_change H p (svc sys)).
    by destruct (patch_commit _ _ _).
  - destruct (post_transaction _ _ _ _ _). by apply ChSame.
  - by apply ChSame.
Qed.

Lemma same_identity_set_balance b a : same_identity a (set_balance b a).
Proof. done. Qed.

Lemma change_rows_kept st st' : StoreChange st st' -> rows_kept st st'.
Proof.
  intros [-> | acct Hfree -> | k a b Hk ->] j x Hj; simpl.
  - by exists x.
  - exists x. split; [|done]. rewrite lookup_insert_ne; [done | congruence].
  - destruct (decide (k = j)) as [->|Hne].
    + exists (set_balance b a). rewrite lookup_insert_eq.
      split; [done|]. assert (x = a) as -> by congruence. done.
    + exists x. by rewrite lookup_insert_ne.
Qed.

Lemma rows_kept_trans st1 st2 st3 :
  rows_kept st1 st2 -> rows_kept st2 st3 -> rows_kept st1 st3.
Proof.
  intros H12 H23 k a Ha.
  destruct (H12 k a Ha) as (b & Hb & (? & ? & ?)).
  destruct (H23 k b Hb) as (c & Hc & (? & ? & ?)).
  exists c. split; [done|]. repeat split; congruence.
Qed.

(** ** Writes that wait for their turn *)

Lemma change_pending_hits H st st' p :
  StoreChange st st' -> pending_hits H st p -> pending_hits H st' p.
Proof.
  intros Hch (k & a & Hk & Ha & Hu).
  destruct (change_rows_kept st st' Hch k a Ha) as (a' & Ha' & (Hid & _)).
  exists k, a'. repeat split; [done | done | congruence].
Qed.

Lemma patch_begin_pending H c accountId amount ty s s' p :
  patch_begin H c accountId amount ty s = (s', AwaitUpdate p) ->
  pending_hits H (db s') p.
Proof.
  unfold patch_begin, authenticateToken, db_select.
  destruct c as [| |uid]; try done.
  repeat (case_match; simplify_eq; try done).
  intros [= <- <-]. simpl.
  match goal with E : (_ =? _) = true |- _ => apply Z.eqb_eq in E end.
  eexists _, _. eauto.
Qed.

Lemma step_pending_hit H sys e :
  all_pending_hit H sys -> all_pending_hit H (fst (step H sys e)).
Proof.
  unfold all_pending_hit. intros Hall.
  pose proof (step_change H sys e) as Hch.
  destruct e; simpl in *.
  - destruct (get_account _ _ _ _); simpl in *.
    eapply Forall_impl; [done|]. intros p. by apply change_pending_hits.
  - destruct (create_account _ _ _ _ _ _); simpl in *.
    eapply Forall_impl; [done|]. intros p. by apply change_pending_hits.
  - destruct (patch_begin _ _ _ _ _ _) as [s' [r|p]] eqn:Eb; simpl in *.
    + eapply Forall_impl; [done|]. intros p. by apply change_pending_hits.
    + apply Forall_app. split.
      * eapply Forall_impl; [done|]. intros q. by apply change_pending_hits.
      * apply Forall_singleton. by eapply patch_begin_pending.
  - destruct (inflight sys !! i) as [p|]; [|done].
    destruct (patch_commit _ _ _); simpl in *.
    apply Forall_delete.
    eapply Forall_impl; [done|]. intros q. by apply change_pending_hits.
  - by destruct (post_transaction _ _ _ _ _).
  - done.
Qed.

Lemma run_pending_hit H es : forall sys,
  all_pending_hit H sys -> all_pending_hit H (run H sys es).
Proof.
  induction es as [|e es IH]; intros sys Hall; simpl; [done|].
  by apply IH, step_pending_hit.
Qed.

Lemma initial_pending_hit H : all_pending_hit H initial.
Proof. constructor. Qed.

Lemma reachable_write_lands H es i p :
  inflight (run H initial es) !! i = Some p ->
  exists k a,
    pg_int4_in H (p_accountId p) = Some k
    /\ accounts (db (svc (run H initial es))) !! k = Some a
    /\ user_id a = p_userId p.
Proof.
  intros Hi.
  pose proof (run_pending_hit H es initial (initial_pending_hit H)) as Hall.
  unfold all_pending_hit in Hall. rewrite Forall_lookup in Hall.
  exact (Hall i p Hi).
Qed.

(** ** The log as the audit trail *)


















(** The scenario of the specification: account 1 opened with 100.00; a
    debit of 40.00 leaves 60.00 and one line; a debit of 1000.00 is
    answered "Insufficient funds", the balance stays 60.00 and no line
    is added. *)
Example debit_then_overdraw :
  stored_balance (serve_all plain_host (svc opened_100) serial_requests) 1
  = Some 60%float
  /\ balance_updates
       (log (serve_all plain_host (svc opened_100) serial_requests))
     = [LogBalanceUpdated "1" 100 60 (JStr "debit") (JNum 40)]
  /\ snd (serve plain_host
            (serve_all plain_host (svc opened_100)
               [RPatchBalance alice "1" (JNum 40) (JStr "debit")])
            (RPatchBalance alice "1" (JNum 1000) (JStr "debit")))
     = json 400 (ErrorBody "Insufficient funds").
Proof.
  repeat split; vm_compute; reflexivity.
Qed.

(** * Further properties *)

(** ** Digit strings and the masked account number *)

Lemma string_length_append (a b : string) :
  String.length (String.append a b) = (String.length a + String.length b)%nat.
Proof. induction a as [|c a IH]; simpl; [done | by rewrite IH]. Qed.

Lemma all_digits_append (a b : string) :
  all_digits (String.append a b) = all_digits a && all_digits b.
Proof.
  induction a as [|c a IH]; simpl; [done|].
  by rewrite IH, andb_assoc.
Qed.

Lemma four_digits_all (s : string) :
  all_digits s = true -> (4 <= String.length s)%nat -> four_digits s = true.
Proof.
  destruct s as [|a [|b [|c [|d s]]]]; simpl; try lia.
  intros Hd _.
  destruct (is_digit a), (is_digit b), (is_digit c), (is_digit d); done.
Qed.

Lemma four_digits_short (s : string) :
  (String.length s < 4)%nat -> four_digits s = false.
Proof. destruct s as [|a [|b [|c [|d s]]]]; simpl; try done; lia. Qed.

Lemma mask_short (s : string) : (String.length s < 5)%nat -> mask s = s.
Proof.
  induction s as [|c r IH]; simpl; [done|]. intros Hl.
  rewrite four_digits_short by lia. rewrite andb_false_r, IH by lia. done.
Qed.

Lemma is_digit_masked (c : ascii) (b : bool) :
  is_digit (if b then "*"%char else c) = true -> is_digit c = true.
Proof. destruct b; [discriminate | done]. Qed.

Lemma four_digits_mask (s : string) :
  four_digits (mask s) = true -> four_digits s = true.
Proof.
  destruct s as [|a [|b [|c [|d s]]]]; try done.
  cbn [mask four_digits].
  intros Hd.
  repeat match type of Hd with
         | ?x && ?y = true => apply andb_prop in Hd as [Hd ?]
         end.
  repeat match goal with
         | E : is_digit (if _ then _ else _) = true |- _ =>
             apply is_digit_masked in E; rewrite E
         end.
  done.
Qed.

(** X1.  Masking keeps the length of the string, and in a masked string
    no digit is followed by four digits: at most the last four digits of
    any run of digits are left readable. *)
Theorem mask_hides_digit_runs (s : string) :
  String.length (mask s) = String.length s
  /\ five_digit_run (mask s) = false
  /\ mask (mask s) = mask s.
Proof.
  split; [|split].
  - induction s as [|c r IH]; simpl; [done | by rewrite IH].
  - induction s as [|c r IH]; simpl; [done|]. rewrite IH, orb_false_r.
    destruct (is_digit c && four_digits r) eqn:E; [done|].
    destruct (is_digit c); [|done]. simpl in *.
    destruct (four_digits (mask r)) eqn:Em; [|done].
    apply four_digits_mask in Em. congruence.
  - induction s as [|c r IH]; simpl; [done|]. rewrite IH. f_equal.
    destruct (is_digit c && four_digits r) eqn:E; [done|].
    destruct (is_digit c); [|done]. simpl in *.
    destruct (four_digits (mask r)) eqn:Em; [|done].
    apply four_digits_mask in Em. congruence.
Qed.

Lemma mask_all_digits (s : string) :
  all_digits s = true ->
  mask s
  = String.append (string_repeat "*" (String.length s - 4))
      (string_suffix 4 s).
Proof.
  unfold string_suffix.
  induction s as [|c r IH]; simpl; [done|].
  intros Hd. apply andb_prop in Hd as [Hc Hr]. rewrite Hc. simpl.
  destruct (le_lt_dec 4 (String.length r)) as [Hl|Hl].
  - rewrite (four_digits_all r Hr Hl), (IH Hr).
    replace (String.length r - 3)%nat with (S (String.length r - 4)) by lia.
    done.
  - rewrite (four_digits_short r Hl), mask_short by lia.
    replace (String.length r - 3)%nat with 0%nat by lia. done.
Qed.

(** X2.  A string of digits is masked to stars followed by its last
    four digits (to itself when it has at most four). *)
Theorem mask_digits_shows_last_four (s : string) :
  all_digits s = true ->
  mask s
  = String.append (string_repeat "*" (String.length s - 4))
      (string_suffix 4 s).
Proof.
  unfold string_suffix.
  induction s as [|c r IH]; simpl; [done|].
  intros Hd. apply andb_prop in Hd as [Hc Hr]. rewrite Hc. simpl.
  destruct (le_lt_dec 4 (String.length r)) as [Hl|Hl].
  - rewrite (four_digits_all r Hr Hl), (IH Hr).
    replace (String.length r - 3)%nat with (S (String.length r - 4)) by lia.
    done.
  - rewrite (four_digits_short r Hl), mask_short by lia.
    replace (String.length r - 3)%nat with 0%nat by lia. done.
Qed.

Lemma mask_digits_witness : mask "0123456789" = "******6789".
Proof.
  rewrite (mask_digits_shows_last_four "0123456789"); reflexivity.
Defined.

Lemma digits_value_from_acc (s : string) : forall acc,
  all_digits s = true ->
  digits_value_from acc s
  = acc * 10 ^ Z.of_nat (String.length s) + digits_value_from 0 s.
Proof.
  induction s as [|c r IH]; intros acc Hd.
  - simpl. lia.
  - cbn [all_digits] in Hd. apply andb_prop in Hd as [Hc Hr].
    cbn [digits_value_from String.length]. rewrite Hc.
    rewrite (IH (10 * acc + _) Hr), (IH (10 * 0 + _) Hr).
    rewrite Nat2Z.inj_succ, Z.pow_succ_r by lia. ring.
Qed.

Lemma is_digit_pretty_char (y : N) : is_digit (pretty_N_char y) = true.
Proof. unfold pretty_N_char. repeat case_match; reflexivity. Qed.

Lemma digit_value_pretty_char (y : N) :
  (y < 10)%N -> Z.of_nat (nat_of_ascii (pretty_N_char y)) - 48 = Z.of_N y.
Proof.
  intros Hy.
  assert (y = 0 \/ y = 1 \/ y = 2 \/ y = 3 \/ y = 4 \/ y = 5 \/ y = 6
          \/ y = 7 \/ y = 8 \/ y = 9)%N as Hc by lia.
  repeat (destruct Hc as [-> | Hc]; [reflexivity|]). by subst.
Qed.

Lemma pretty_N_go_digits (x : N) : forall s,
  all_digits (pretty_N_go x s) = all_digits s.
Proof.
  induction (N.lt_wf_0 x) as [x _ IH]; intros s.
  destruct (decide (x = 0)%N) as [->|Hx]; [by rewrite pretty_N_go_0|].
  rewrite pretty_N_go_step by lia.
  rewrite IH by (apply N.div_lt; lia).
  simpl. by rewrite is_digit_pretty_char.
Qed.

Lemma pretty_N_go_length_ge (x : N) : forall s,
  (String.length s <= String.length (pretty_N_go x s))%nat.
Proof.
  induction (N.lt_wf_0 x) as [x _ IH]; intros s.
  destruct (decide (x = 0)%N) as [->|Hx]; [by rewrite pretty_N_go_0|].
  rewrite pretty_N_go_step by lia.
  etrans; [|apply IH; apply N.div_lt; lia]. simpl. lia.
Qed.

Lemma pretty_N_go_length_le (n : nat) : forall x s,
  (x < 10 ^ N.of_nat n)%N ->
  (String.length (pretty_N_go x s) <= String.length s + n)%nat.
Proof.
  induction n as [|n IH]; intros x s Hx.
  - assert (x = 0%N) as -> by (simpl in Hx; lia).
    rewrite pretty_N_go_0. lia.
  - destruct (decide (x = 0)%N) as [->|Hx0].
    { rewrite pretty_N_go_0. lia. }
    rewrite pretty_N_go_step by lia.
    etrans; [apply IH|simpl; lia].
    rewrite Nat2N.inj_succ, N.pow_succ_r' in Hx.
    apply N.Div0.div_lt_upper_bound. lia.
Qed.

Lemma pretty_N_go_value (x : N) : forall s,
  all_digits s = true ->
  digits_value_from 0 (pretty_N_go x s)
  = Z.of_N x * 10 ^ Z.of_nat (String.length s) + digits_value_from 0 s.
Proof.
  induction (N.lt_wf_0 x) as [x _ IH]; intros s Hs.
  destruct (decide (x = 0)%N) as [->|Hx]; [rewrite pretty_N_go_0; lia|].
  rewrite pretty_N_go_step by lia.
  rewrite IH; [|apply N.div_lt; lia|simpl; by rewrite is_digit_pretty_char].
  cbn [digits_value_from String.length]. rewrite is_digit_pretty_char.
  rewrite (digits_value_from_acc s _ Hs).
  rewrite digit_value_pretty_char by (apply N.mod_lt; lia).
  rewrite Nat2Z.inj_succ, Z.pow_succ_r by lia.
  rewrite (N.div_mod x 10) at 3 by lia.
  rewrite N2Z.inj_add, N2Z.inj_mul. simpl Z.of_N at 3. ring.
Qed.

Lemma digits_value_pretty (n : N) :
  digits_only (pretty n) = true /\ digits_value (pretty n) = Z.of_N n.
Proof.
  unfold pretty, pretty_N, digits_only, digits_value.
  destruct (decide (n = 0%N)) as [->|Hn]; [done|].
  rewrite pretty_N_go_digits, pretty_N_go_value by done.
  split; [|simpl; lia].
  rewrite andb_true_r.
  rewrite pretty_N_go_step by lia.
  pose proof (pretty_N_go_length_ge (n `div` 10)
                (String (pretty_N_char (n `mod` 10)) "")) as Hl.
  destruct (pretty_N_go _ _); [simpl in Hl; lia | done].
Qed.

Lemma zeros_props (k : nat) :
  String.length (String.concat "" (replicate k "0")) = k
  /\ all_digits (String.concat "" (replicate k "0")) = true
  /\ forall s, digits_value_from 0
                 (String.append (String.concat "" (replicate k "0")) s)
               = digits_value_from 0 s.
Proof.
  assert (forall j, String.concat "" (replicate (S j) "0")
                    = String "0" (String.concat "" (replicate j "0"))) as Hs.
  { intros [|j]; reflexivity. }
  induction k as [|k (Hl & Hd & Hp)]; [done|].
  rewrite Hs. simpl. rewrite Hl, Hd. repeat split; try done.
Qed.

Lemma pretty_N_length (n : N) :
  (n < 10 ^ 9)%N -> (1 <= String.length (pretty n) <= 9)%nat.
Proof.
  intros Hn. unfold pretty, pretty_N.
  destruct (decide (n = 0%N)) as [->|Hn0]; [simpl; lia|].
  split.
  - rewrite pretty_N_go_step by lia.
    etrans; [|apply pretty_N_go_length_ge]. simpl. lia.
  - apply (pretty_N_go_length_le 9 n ""). exact Hn.
Qed.

(** X3.  The account number drawn at creation, for a draw below 10^9, is
    a string of exactly ten digits whose value is the draw, and the
    response shows six stars followed by its last four digits. *)
Theorem account_number_shape (rnd : N) :
  (rnd < 10 ^ 9)%N ->
  String.length (padStart0 10 (pretty rnd)) = 10%nat
  /\ all_digits (padStart0 10 (pretty rnd)) = true
  /\ digits_value (padStart0 10 (pretty rnd)) = Z.of_N rnd
  /\ parseInt (padStart0 10 (pretty rnd)) = float_of_Z (Z.of_N rnd)
  /\ mask (padStart0 10 (pretty rnd))
     = String.append "******" (string_suffix 4 (padStart0 10 (pretty rnd))).
Proof.
  intros Hr. pose proof (pretty_N_length rnd Hr) as Hl.
  destruct (zeros_props (10 - String.length (pretty rnd))) as (Zl & Zd & Zp).
  destruct (digits_value_pretty rnd) as [Hd Hv].
  unfold digits_only in Hd. apply andb_prop in Hd as [_ Hd].
  assert (String.length (padStart0 10 (pretty rnd)) = 10%nat) as Hlen.
  { unfold padStart0. rewrite string_length_append, Zl. lia. }
  assert (all_digits (padStart0 10 (pretty rnd)) = true) as Hall.
  { unfold padStart0. by rewrite all_digits_append, Zd, Hd. }
  assert (digits_value (padStart0 10 (pretty rnd)) = Z.of_N rnd) as Hval.
  { unfold digits_value, padStart0. by rewrite Zp. }
  repeat split; try done.
  - unfold parseInt. by rewrite Hval.
  - rewrite (mask_all_digits _ Hall), Hlen. reflexivity.
Qed.

Lemma account_number_witness :
  padStart0 10 (pretty 4321%N) = "0000004321"
  /\ mask (padStart0 10 (pretty 4321%N))
     = String.append "******" (string_suffix 4 (padStart0 10 (pretty 4321%N))).
Proof.
  split; [reflexivity|].
  apply (account_number_shape 4321%N). reflexivity.
Defined.

(** ** Authentication and reads *)

(** X4.  A request without a valid token never reaches a handler: each
    of the three account routes logs the attempt and answers 401 with
    the text "Unauthorized" (no token) or 403 with the text "Forbidden"
    (invalid token), whatever the request and the store hold, and leaves
    the store as it was. *)
Theorem unauthenticated_is_turned_away H c accountId rnd ty dep amount s :
  (forall uid, c <> ValidToken uid) ->
  exists code text entry,
    (c = NoToken /\ code = 401 /\ text = "Unauthorized"
     /\ entry = LogNoToken
     \/ c = InvalidToken /\ code = 403 /\ text = "Forbidden"
        /\ entry = LogInvalidToken)
    /\ get_account H c accountId s
       = ({| db := db s; log := log s ++ [entry] |},
          json code (TextBody text))
    /\ create_account H c rnd ty dep s
       = ({| db := db s; log := log s ++ [entry] |},
          json code (TextBody text))
    /\ patch_balance H c accountId amount ty s
       = ({| db := db s; log := log s ++ [entry] |},
          json code (TextBody text)).
Proof.
  intros Hc. destruct c as [| |uid].
  - exists 401, "Unauthorized", LogNoToken.
    split; [left; done|]. repeat split.
  - exists 403, "Forbidden", LogInvalidToken.
    split; [right; done|]. repeat split.
  - by destruct (Hc uid).
Qed.

Lemma unauthenticated_witness :
  snd (patch_balance plain_host NoToken "1" (JNum 50) (JStr "debit")
         (svc opened_100))
  = json 401 (TextBody "Unauthorized").
Proof.
  destruct (unauthenticated_is_turned_away plain_host NoToken "1" 0%N
              (JStr "debit") (JNum 1) (JNum 50) (svc opened_100))
    as (code & text & entry & Hcode & _ & _ & Hp); [discriminate|].
  rewrite Hp.
  destruct Hcode as [(_ & -> & -> & _) | (Hno & _)]; [reflexivity|].
  discriminate Hno.
Defined.

(** X5.  The read never changes the store and writes exactly one log
    line.  It answers 200 only to a caller whose user id equals, as a
    number, the [parseInt] of the path parameter and who owns the row
    the parameter designates; the body then carries the row with its
    account number masked. *)
Theorem get_account_read_only_and_gated H c accountId s :
  db (fst (get_account H c accountId s)) = db s
  /\ (exists e, log (fst (get_account H c accountId s)) = (log s ++ [e])%list)
  /\ (status (snd (get_account H c accountId s)) = 200 ->
      exists uid k a,
        c = ValidToken uid
        /\ digits_only accountId = true
        /\ (float_of_Z uid =? parseInt accountId)%float = true
        /\ pg_int4_in H accountId = Some k
        /\ accounts (db s) !! k = Some a
        /\ user_id a = uid
        /\ snd (get_account H c accountId s)
           = json 200 (AccountBody k (mask (account_number a)) (balance a)
                         (account_type a))).
Proof.
  split; [apply get_account_db|]. unfold get_account, authenticateToken.
  destruct c as [| |uid]; try (split; [simpl; eauto | discriminate]).
  destruct (negb (truthy (JStr accountId)) || negb (digits_only accountId))
    eqn:Ed; [split; [simpl; eauto | discriminate]|].
  destruct (negb (float_of_Z uid =? parseInt accountId)%float) eqn:Eu;
    [split; [simpl; eauto | discriminate]|].
  apply orb_false_elim in Ed as [_ Ed].
  apply negb_false_iff in Ed. apply negb_false_iff in Eu.
  unfold db_select.
  destruct (pg_int4_in H accountId) as [k|] eqn:Ek;
    [|split; [simpl; eauto | discriminate]].
  destruct (accounts (db s) !! k) as [a|] eqn:Ea;
    [|split; [simpl; eauto | discriminate]].
  destruct (user_id a =? uid) eqn:Eo;
    [|split; [simpl; eauto | discriminate]].
  apply Z.eqb_eq in Eo.
  split; [simpl; eauto|]. intros _. exists uid, k, a. by repeat split.
Qed.

Lemma get_account_gated_witness :
  exists uid k a,
    alice = ValidToken uid
    /\ digits_only "1" = true
    /\ (float_of_Z uid =? parseInt "1")%float = true
    /\ pg_int4_in plain_host "1" = Some k
    /\ accounts (db (svc opened_100)) !! k = Some a
    /\ user_id a = uid
    /\ snd (get_account plain_host alice "1" (svc opened_100))
       = json 200 (AccountBody k (mask (account_number a)) (balance a)
                     (account_type a)).
Proof.
  destruct (get_account_read_only_and_gated plain_host alice "1"
              (svc opened_100)) as (_ & _ & Hok).
  apply Hok. reflexivity.
Defined.

(** X6.  The authorization check of the read compares the caller's user id with the
    account id: a caller who owns an account whose id, read by
    [parseInt], is not that caller's user id is answered 403 "Access
    denied" when reading it, although the query of the handler would
    have found the row. *)
Theorem owner_with_other_id_is_denied H uid accountId k a s :
  digits_only accountId = true ->
  (float_of_Z uid =? parseInt accountId)%float = false ->
  pg_int4_in H accountId = Some k ->
  accounts (db s) !! k = Some a ->
  user_id a = uid ->
  get_account H (ValidToken uid) accountId s
  = (logged (LogUnauthorizedAccess accountId uid) s,
     json 403 (ErrorBody "Access denied"))
  /\ db_select H (db s) accountId uid = Returned (Some (k, a)).
Proof.
  intros Hd Hne Hk Ha Hu. split; [|by apply db_select_owned].
  unfold get_account, authenticateToken.
  destruct (negb (truthy (JStr accountId)) || negb (digits_only accountId))
    eqn:Ev.
  { rewrite Hd, orb_false_r in Ev. unfold digits_only in Hd. simpl in Ev.
    apply andb_prop in Hd as [Hd _]. rewrite Hd in Ev. discriminate Ev. }
  by rewrite Hne.
Qed.

Lemma owner_denied_witness :
  get_account plain_host alice "2" (svc alice_twice)
  = (logged (LogUnauthorizedAccess "2" 1) (svc alice_twice),
     json 403 (ErrorBody "Access denied"))
  /\ db_select plain_host (db (svc alice_twice)) "2" 1
     = Returned (Some (2, {| user_id := 1; account_number := "0987654321";
                             account_type := "savings"; balance := 10 |})).
Proof.
  apply (owner_with_other_id_is_denied plain_host 1 "2" 2
           {| user_id := 1; account_number := "0987654321";
              account_type := "savings"; balance := 10 |});
    reflexivity.
Defined.

(** The comparison of the check is one of numbers: for the caller
    9007199254740992 the path 9007199254740993 passes it, and the
    request goes on to the query. *)
Example check_compares_numbers :
  digits_value "9007199254740993" <> 9007199254740992
  /\ (float_of_Z 9007199254740992 =? parseInt "9007199254740993")%float = true
  /\ snd (get_account plain_host (ValidToken 9007199254740992)
            "9007199254740993" (svc initial))
     = json 500 (ErrorBody "Internal server error").
Proof.
  repeat split; try (vm_compute; reflexivity). vm_compute. discriminate.
Qed.

(** ** Creation *)

(** X7.  A creation leaves every existing row exactly as it was.  It
    changes the store only when it answers 201, and then by one new row,
    at the next id of the sequence, owned by the caller and holding the
    deposit; the sequence advances by one. *)
Theorem create_account_frame H c rnd ty dep s :
  (forall k a, accounts (db s) !! k = Some a ->
               accounts (db (fst (create_account H c rnd ty dep s))) !! k
               = Some a)
  /\ (status (snd (create_account H c rnd ty dep s)) <> 201 ->
      db (fst (create_account H c rnd ty dep s)) = db s)
  /\ (status (snd (create_account H c rnd ty dep s)) = 201 ->
      exists uid b,
        c = ValidToken uid
        /\ numeric_param H dep = Some b
        /\ accounts (db s) !! next_account_id (db s) = None
        /\ db (fst (create_account H c rnd ty dep s))
           = {| accounts :=
                  <[next_account_id (db s) :=
                      {| user_id := uid;
                         account_number := padStart0 10 (pretty rnd);
                         account_type := string_of ty;
                         balance := b |}]> (accounts (db s));
                next_account_id := next_account_id (db s) + 1 |}).
Proof.
  unfold create_account, authenticateToken.
  destruct c as [| |uid]; simpl; try (repeat split; [done | discriminate]).
  destruct (negb (truthy ty) || negb (includes ["checking"; "savings"] ty));
    simpl; [repeat split; [done | discriminate]|].
  destruct (negb (truthy dep) || lt_num (StringToNumber H) dep 0
            || gt_num (StringToNumber H) dep MAX_DEPOSIT);
    simpl; [repeat split; [done | discriminate]|].
  unfold db_insert.
  destruct (numeric_param H dep) as [b|] eqn:Eb; simpl;
    [|repeat split; [done | discriminate]].
  destruct (accounts (db s) !! next_account_id (db s)) eqn:Ek; simpl;
    [repeat split; [done | discriminate]|].
  split; [|split; [done|]].
  - intros k a Ha. rewrite lookup_insert_ne; [done|]. congruence.
  - intros _. by exists uid, b.
Qed.

Lemma create_account_frame_witness :
  exists uid b,
    alice = ValidToken uid
    /\ numeric_param plain_host (JNum 10) = Some b
    /\ accounts (db (svc opened_100)) !! next_account_id (db (svc opened_100))
       = None
    /\ db (fst (create_account plain_host alice 987654321 (JStr "savings")
                  (JNum 10) (svc opened_100)))
       = {| accounts :=
              <[next_account_id (db (svc opened_100)) :=
                  {| user_id := uid;
                     account_number := padStart0 10 (pretty 987654321%N);
                     account_type := string_of (JStr "savings");
                     balance := b |}]> (accounts (db (svc opened_100)));
            next_account_id := next_account_id (db (svc opened_100)) + 1 |}.
Proof.
  destruct (create_account_frame plain_host alice 987654321 (JStr "savings")
              (JNum 10) (svc opened_100)) as (_ & _ & Hok).
  apply Hok. reflexivity.
Defined.

(** ** Balance adjustments *)

(** X8.  An adjustment of the account that the path parameter
    designates touches no other row: every row under another id is the
    same before and after, whatever the outcome. *)
Theorem patch_balance_frame H c accountId amount ty s j :
  pg_int4_in H accountId <> Some j ->
  accounts (db (fst (patch_balance H c accountId amount ty s))) !! j
  = accounts (db s) !! j.
Proof.
  intros Hj. unfold patch_balance, patch_begin, authenticateToken.
  destruct c as [| |uid]; simpl; try done.
  destruct (negb (truthy amount)
            || negb (String.eqb (typeof amount) "number")); [done|].
  destruct (negb (includes ["credit"; "debit"] ty)); [done|].
  unfold db_select.
  destruct (pg_int4_in H accountId) as [k|] eqn:Ek; simpl; [|done].
  destruct (accounts (db s) !! k) as [a|] eqn:Ea; simpl; [|done].
  destruct (user_id a =? uid) eqn:Eu; simpl; [|done].
  destruct (newBalance_of (balance a) ty amount <? 0)%float; simpl; [done|].
  unfold patch_commit, db_update. simpl. rewrite Ek, Ea, Eu. simpl.
  apply lookup_insert_ne. congruence.
Qed.

Lemma patch_balance_frame_witness :
  accounts (db (fst (patch_balance plain_host alice "1" (JNum 40)
                       (JStr "debit") (svc two_accounts)))) !! 2
  = accounts (db (svc two_accounts)) !! 2.
Proof.
  apply (patch_balance_frame plain_host alice "1" (JNum 40) (JStr "debit")
           (svc two_accounts) 2).
  vm_compute. discriminate.
Defined.
(** ** Rows along a schedule *)

(** X10.  No step deletes a row or changes its owner, its account number
    or its type: every row of a state is still there, with the same
    three fields, after any schedule. *)
Theorem rows_are_never_lost H es : forall sys,
  rows_kept (db (svc sys)) (db (svc (run H sys es))).
Proof.
  induction es as [|e es IH]; intros sys; simpl.
  - intros k a Ha. by exists a.
  - eapply rows_kept_trans; [|apply IH].
    apply change_rows_kept, step_change.
Qed.

(** ** Resumed writes *)

(** X11.  In every state reached from the empty store, a write that
    waits still has its row: when it resumes it is answered 200 with the
    balance it computed at its read, and that balance is the one
    stored. *)
Theorem resumed_write_always_lands H es i p :
  inflight (run H initial es) !! i = Some p ->
  snd (step H (run H initial es) (EPatchCommit i))
  = Some (json 200 (BalanceBody true (p_newBalance p) (p_transactionType p)
                      (p_amount p)))
  /\ exists k,
       pg_int4_in H (p_accountId p) = Some k
       /\ balance_of (fst (step H (run H initial es) (EPatchCommit i))) k
          = Some (p_newBalance p).
Proof.
  intros Hi.
  destruct (reachable_write_lands H es i p Hi) as (k & a & Hk & Ha & Hu).
  unfold step. rewrite Hi. unfold patch_commit.
  rewrite (db_update_owned H _ _ _ _ k a Hk Ha Hu).
  split; [done|]. exists k. split; [done|].
  unfold balance_of. simpl. by rewrite lookup_insert_eq.
Qed.

Lemma resumed_write_witness :
  snd (step plain_host
         (run plain_host initial
            [ECreateAccount alice 123456789 (JStr "checking") (JNum 100);
             EPatchBegin alice "1" (JNum 80) (JStr "debit");
             EPatchBegin alice "1" (JNum 30) (JStr "debit");
             EPatchCommit 1])
         (EPatchCommit 0))
  = Some (json 200 (BalanceBody true 20 (JStr "debit") (JNum 80))).
Proof.
  destruct (resumed_write_always_lands plain_host
              [ECreateAccount alice 123456789 (JStr "checking") (JNum 100);
               EPatchBegin alice "1" (JNum 80) (JStr "debit");
               EPatchBegin alice "1" (JNum 30) (JStr "debit");
               EPatchCommit 1] 0
              {| p_accountId := "1"; p_userId := 1; p_currentBalance := 100;
                 p_newBalance := 20; p_transactionType := JStr "debit";
                 p_amount := JNum 80 |}) as [Hr _].
  - vm_compute. reflexivity.
  - exact Hr.
Defined.

(** ** The edges of validation *)

(** X13.  The adjustment takes an amount only as a JSON number: a
    numeric string, a boolean, null, an object or a missing field is
    answered 400 "Invalid amount" before the store is read, and the
    service is left as it was. *)
Theorem adjustment_amount_must_be_a_number H uid accountId amount ty s :
  (forall n, amount <> JNum n) ->
  patch_balance H (ValidToken uid) accountId amount ty s
  = (s, json 400 (ErrorBody "Invalid amount")).
Proof.
  intros Hn. unfold patch_balance, patch_begin, authenticateToken.
  destruct amount; simpl; try done; try (by destruct b).
  - by destruct (Hn n).
  - by destruct (negb (String.eqb s0 "")).
Qed.

Lemma adjustment_amount_witness :
  patch_balance plain_host alice "1" (JStr "50") (JStr "credit")
    (svc opened_100)
  = (svc opened_100, json 400 (ErrorBody "Invalid amount")).
Proof.
  apply (adjustment_amount_must_be_a_number plain_host 1 "1" (JStr "50")).
  discriminate.
Defined.

(** X14.  The range test of the creation lets through a deposit that
    does not convert to a number (both comparisons are false): with a
    valid type, such a deposit reaches the [INSERT], and when the
    database refuses it the answer is 500 "Internal server error", not a
    validation error; nothing is stored. *)
Theorem deposit_not_a_number_reaches_insert H uid rnd ty dep s :
  includes ["checking"; "savings"] ty = true ->
  truthy dep = true ->
  PrimFloat.is_nan (ToNumber (StringToNumber H) dep) = true ->
  numeric_param H dep = None ->
  create_account H (ValidToken uid) rnd ty dep s
  = (logged (LogErrorCreating uid) s,
     json 500 (ErrorBody "Internal server error")).
Proof.
  intros Hty Ht Hnan Hpg. unfold create_account, authenticateToken.
  destruct (includes_string _ _ Hty) as (t & -> & _).
  rewrite Hty, Ht.
  assert (truthy (JStr t) = true) as ->.
  { simpl in *. destruct t; [discriminate Hty | done]. }
  unfold lt_num, gt_num.
  destruct (nan_compares_false _ 0%float Hnan) as (-> & _ & _).
  destruct (nan_compares_false _ MAX_DEPOSIT Hnan) as (_ & -> & _).
  unfold db_insert. by rewrite Hpg.
Qed.

Lemma deposit_not_a_number_witness :
  create_account plain_host alice 4321 (JStr "checking") (JStr "abc")
    (svc opened_100)
  = (logged (LogErrorCreating 1) (svc opened_100),
     json 500 (ErrorBody "Internal server error")).
Proof.
  apply (deposit_not_a_number_reaches_insert plain_host 1 4321%N
           (JStr "checking") (JStr "abc")); reflexivity.
Defined.

(** X15.  The transfer compares the amount as a number: an amount that
    is present but does not convert to one (the comparison with 0 is
    false) is accepted, and the record is "completed". *)
Theorem transfer_amount_not_a_number_is_accepted
    H rnd fromAccount toAccount amount :
  truthy fromAccount = true ->
  truthy toAccount = true ->
  truthy amount = true ->
  PrimFloat.is_nan (ToNumber (StringToNumber H) amount) = true ->
  post_transaction H rnd fromAccount toAccount amount
  = ([LogTransactionProcessed (String.append "txn_" rnd) fromAccount toAccount
        amount],
     json 201 (TransactionBody (String.append "txn_" rnd) "completed"
                 fromAccount toAccount amount)).
Proof.
  intros Hf Ht Ha Hnan. unfold post_transaction, le_num.
  destruct (nan_compares_false _ 0%float Hnan) as (_ & _ & ->).
  by rewrite Hf, Ht, Ha.
Qed.

Lemma transfer_amount_witness :
  snd (post_transaction plain_host "k3j9x2m1q" (JStr "1") (JStr "2")
         (JStr "abc"))
  = json 201 (TransactionBody "txn_k3j9x2m1q" "completed" (JStr "1") (JStr "2")
                (JStr "abc")).
Proof.
  rewrite (transfer_amount_not_a_number_is_accepted plain_host "k3j9x2m1q"
             (JStr "1") (JStr "2") (JStr "abc")); reflexivity.
Defined.

(** ** The balance test along a schedule *)

Lemma db_insert_nonneg H st uid num ty (n : float) st' k :
  (n <? 0)%float = false ->
  balances_nonneg st ->
  db_insert H st uid num ty (JNum n) = Returned (st', k) ->
  balances_nonneg st'.
Proof.
  intros Hlt Hinv. unfold db_insert, numeric_param.
  destruct (accounts st !! next_account_id st) eqn:Ek; [done|].
  intros [= <- <-] j a. simpl.
  rewrite lookup_insert. case_decide as Hj.
  - by intros [= <-].
  - apply Hinv.
Qed.

Lemma db_update_nonneg H st b accountId uid st' :
  not_below_zero b -> balances_nonneg st ->
  db_update H st b accountId uid = Returned st' ->
  balances_nonneg st'.
Proof.
  intros Hb Hinv. unfold db_update.
  destruct (pg_int4_in H accountId) as [k|]; [|done].
  destruct (accounts st !! k) as [a|] eqn:Ek.
  - destruct (user_id a =? uid).
    + intros [= <-] j a'. simpl. rewrite lookup_insert.
      case_decide; [intros [= <-]; done | apply Hinv].
    + by intros [= <-].
  - by intros [= <-].
Qed.

Lemma create_account_nonneg H c rnd ty (n : float) s :
  balances_nonneg (db s) ->
  balances_nonneg (db (fst (create_account H c rnd ty (JNum n) s))).
Proof.
  intros Hinv. unfold create_account, authenticateToken.
  destruct c as [| |uid]; try done.
  destruct (negb (truthy ty) || negb (includes ["checking"; "savings"] ty));
    [done|].
  destruct (negb (truthy (JNum n)) || lt_num (StringToNumber H) (JNum n) 0
            || gt_num (StringToNumber H) (JNum n) MAX_DEPOSIT) eqn:E; [done|].
  apply orb_false_elim in E as [E _]. apply orb_false_elim in E as [_ E].
  destruct (db_insert H (db s) uid _ ty (JNum n)) as [|[st k]] eqn:Ei;
    [done|].
  eapply db_insert_nonneg; eauto.
Qed.

Lemma patch_begin_nonneg H c accountId amount ty s s' p :
  patch_begin H c accountId amount ty s = (s', AwaitUpdate p) ->
  not_below_zero (p_newBalance p).
Proof.
  unfold patch_begin, authenticateToken.
  destruct c as [| |uid]; try done.
  repeat (case_match; try done);
    intros [= <- <-]; simpl; done.
Qed.

Lemma patch_commit_nonneg H p s :
  not_below_zero (p_newBalance p) -> balances_nonneg (db s) ->
  balances_nonneg (db (fst (patch_commit H p s))).
Proof.
  intros Hp Hinv. unfold patch_commit.
  destruct (db_update H (db s) _ _ _) as [|st] eqn:Eu; simpl; [done|].
  eapply db_update_nonneg; eauto.
Qed.

Lemma step_nonneg H sys e :
  deposit_is_number e -> sys_nonneg sys -> sys_nonneg (fst (step H sys e)).
Proof.
  intros He [Hdb Hfl]. destruct e; simpl.
  - pose proof (get_account_db H c accountId (svc sys)) as E.
    destruct (get_account H c accountId (svc sys)) as [s r]; simpl in *.
    split; simpl; [by rewrite E | done].
  - destruct He as [n ->].
    pose proof (create_account_nonneg H c rnd accountType n (svc sys) Hdb)
      as E.
    destruct (create_account H c rnd accountType (JNum n) (svc sys))
      as [s r]; simpl in *.
    by split.
  - pose proof (patch_begin_db H c accountId amount transactionType (svc sys))
      as E.
    destruct (patch_begin H c accountId amount transactionType (svc sys))
      as [s [r|p]] eqn:Eb; simpl in *.
    + split; simpl; [by rewrite E | done].
    + split; simpl; [by rewrite E |].
      apply Forall_app; split; [done|].
      apply Forall_singleton. eapply patch_begin_nonneg; eauto.
  - destruct (inflight sys !! i) as [p|] eqn:Ei; simpl; [|by split].
    assert (not_below_zero (p_newBalance p)) as Hp.
    { unfold writes_nonneg in Hfl. rewrite Forall_lookup in Hfl. eauto. }
    pose proof (patch_commit_nonneg H p (svc sys) Hp Hdb) as E.
    destruct (patch_commit H p (svc sys)) as [s r]; simpl in *.
    split; simpl; [done|].
    by apply Forall_delete.
  - destruct (post_transaction H rnd fromAccount toAccount amount); simpl.
    by split.
  - by split.
Qed.

Lemma run_nonneg H es : forall sys,
  Forall deposit_is_number es -> sys_nonneg sys -> sys_nonneg (run H sys es).
Proof.
  induction es as [|e es IH]; intros sys Hes Hinv; simpl; [done|].
  apply Forall_cons in Hes as [He Hes].
  apply IH; [done|]. by apply step_nonneg.
Qed.

Lemma initial_nonneg : sys_nonneg initial.
Proof.
  split; simpl.
  - intros k a Hk. cbn in Hk. by rewrite lookup_empty in Hk.
  - constructor.
Qed.

(** X21.  When every creation of a schedule carries its deposit as a
    JSON number, no balance stored in a state reached from the empty
    store compares below zero, and neither does a balance that a waiting
    write is about to store: the range test of the creation and the
    [newBalance < 0] test of the adjustment are then tests of the number
    that is stored. *)
Theorem number_deposits_keep_balances_from_below_zero H es :
  Forall deposit_is_number es ->
  (forall k a, accounts (db (svc (run H initial es))) !! k = Some a ->
               (balance a <? 0)%float = false)
  /\ (forall i p, inflight (run H initial es) !! i = Some p ->
                  (p_newBalance p <? 0)%float = false).
Proof.
  intros Hes.
  destruct (run_nonneg H es initial Hes initial_nonneg) as [Hdb Hfl].
  split; [exact Hdb|].
  intros i p Hi. unfold writes_nonneg in Hfl. rewrite Forall_lookup in Hfl.
  exact (Hfl i p Hi).
Qed.

Lemma number_deposits_witness :
  (balance {| user_id := 1; account_number := "0123456789";
              account_type := "checking"; balance := 20 |} <? 0)%float
  = false.
Proof.
  destruct (number_deposits_keep_balances_from_below_zero plain_host
              [ECreateAccount alice 123456789 (JStr "checking") (JNum 100);
               EPatchBegin alice "1" (JNum 80) (JStr "debit");
               EPatchBegin alice "1" (JNum 30) (JStr "debit");
               EPatchCommit 1; EPatchCommit 0]) as [Hdb _].
  - repeat constructor; by eexists.
  - apply (Hdb 1). vm_compute. reflexivity.
Defined.

(** ** Notifications and their timers *)

Lemma deliveryTime_included (type : JsValue) :
  includes ["email"; "sms"; "push"] type = true ->
  exists d, deliveryTime type = Some d /\ 500 <= d <= 2000.
Proof.
  destruct type as [| | | |s|]; simpl; try done.
  destruct (String.eqb s "email"); [intros _; exists 2000; split; [done|lia]|].
  destruct (String.eqb s "sms"); [intros _; exists 1000; split; [done|lia]|].
  destruct (String.eqb s "push"); [intros _; exists 500; split; [done|lia]|].
  done.
Qed.

(** X16.  A notification is accepted (201) exactly when it has a user,
    a message and one of the three channels as type; a request that is
    not accepted leaves the log and the timers as they were. *)
Theorem send_notification_validation
    armed now rnd userId type message priority n :
  (n_status (snd (send_notification armed now rnd userId type message
                    priority n))
   = 201
   <-> truthy userId = true /\ truthy message = true
       /\ includes ["email"; "sms"; "push"] type = true)
  /\ (n_status (snd (send_notification armed now rnd userId type message
                       priority n))
      <> 201 ->
      fst (send_notification armed now rnd userId type message priority n)
      = n).
Proof.
  unfold send_notification.
  destruct (truthy userId) eqn:Eu; simpl;
    [|split; [split; [discriminate | intros (? & _); discriminate] | done]].
  destruct (includes ["email"; "sms"; "push"] type) eqn:Ei.
  - assert (truthy type = true) as ->.
    { apply (includes_truthy ["email"; "sms"; "push"]); [|done].
      simpl. intros [?|[?|[?|[]]]]; discriminate. }
    simpl. destruct (truthy message) eqn:Em; simpl;
      [|split; [split; [discriminate | intros (_ & ? & _); discriminate]
               | done]].
    destruct (deliveryTime_included type Ei) as (d & -> & _). simpl.
    split; [done|]. intros Hne. by destruct Hne.
  - destruct (negb (truthy type) || negb (truthy message)); simpl;
      (split; [split; [discriminate | intros (_ & _ & ?); discriminate]
              | done]).
Qed.

(** X17.  An accepted notification is answered "queued" with an
    estimated delivery between 500 and 2000 ms after the response is
    built; it writes one "sent" line, whose priority is the one given or
    "normal", and arms exactly one timer, with the same delay. *)
Theorem accepted_notification_is_queued
    armed now rnd userId type message priority n :
  truthy userId = true ->
  truthy message = true ->
  includes ["email"; "sms"; "push"] type = true ->
  exists d,
    deliveryTime type = Some d
    /\ 500 <= d <= 2000
    /\ truthy (or_default priority "normal") = true
    /\ send_notification armed now rnd userId type message priority n
       = ({| nlog := nlog n ++ [LogNotificationSent
                                  (String.append "notif_" rnd) userId type
                                  (or_default priority "normal")];
             timers := timers n ++ [{| t_due := armed + d;
                                       t_notificationId :=
                                         String.append "notif_" rnd;
                                       t_type := type |}] |},
          njson 201 (NQueuedBody (String.append "notif_" rnd) "queued" type
                       (now + d))).
Proof.
  intros Hu Hm Hi.
  destruct (deliveryTime_included type Hi) as (d & Hd & Hr).
  exists d. repeat split; try done; try lia.
  - unfold or_default. by destruct (truthy priority) eqn:E.
  - unfold send_notification. rewrite Hu, Hm, Hi, Hd.
    assert (truthy type = true) as ->; [|done].
    apply (includes_truthy ["email"; "sms"; "push"]); [|done].
    simpl. intros [?|[?|[?|[]]]]; discriminate.
Qed.

Lemma accepted_notification_witness :
  exists d,
    deliveryTime (JStr "sms") = Some d
    /\ 500 <= d <= 2000
    /\ truthy (or_default JUndefined "normal") = true
    /\ send_notification 0 1 "k3j9x2m1q" (JNum 7) (JStr "sms") (JStr "hello")
         JUndefined notifier0
       = ({| nlog := nlog notifier0
                     ++ [LogNotificationSent (String.append "notif_" "k3j9x2m1q")
                           (JNum 7) (JStr "sms")
                           (or_default JUndefined "normal")];
             timers := timers notifier0
                       ++ [{| t_due := 0 + d;
                              t_notificationId :=
                                String.append "notif_" "k3j9x2m1q";
                              t_type := JStr "sms" |}] |},
          njson 201 (NQueuedBody (String.append "notif_" "k3j9x2m1q") "queued"
                       (JStr "sms") (1 + d))).
Proof.
  apply (accepted_notification_is_queued 0 1 "k3j9x2m1q" (JNum 7) (JStr "sms")
           (JStr "hello") JUndefined notifier0); reflexivity.
Defined.

Lemma filter_length_snoc {A} (f : A -> bool) (l : list A) (x : A) :
  length (List.filter f (l ++ [x]))
  = (length (List.filter f l) + (if f x then 1 else 0))%nat.
Proof.
  rewrite List.filter_app, length_app. simpl. by destruct (f x).
Qed.

Lemma filter_length_delete {A} (f : A -> bool) (l : list A) : forall i x,
  l !! i = Some x ->
  (length (List.filter f (delete i l)) + (if f x then 1 else 0))%nat
  = length (List.filter f l).
Proof.
  induction l as [|y l IH]; intros [|i] x Hx; try done.
  - injection Hx as ->. simpl. destruct (f x); simpl; lia.
  - simpl in *. specialize (IH i x Hx). destruct (f y); simpl; lia.
Qed.

Lemma nstep_balance nid n e :
  count_sent nid n = (count_delivered nid n + count_waiting nid n)%nat ->
  count_sent nid (nstep n e)
  = (count_delivered nid (nstep n e) + count_waiting nid (nstep n e))%nat.
Proof.
  unfold count_sent, count_delivered, count_waiting. intros Hinv.
  destruct e as [armed now rnd userId type message priority | now i | |];
    cbn [nstep].
  - unfold send_notification. cbv zeta.
    generalize (String.append "notif_" rnd). intros x.
    repeat (case_match; try done);
      cbn [fst nlog timers]; rewrite !filter_length_snoc;
      cbn [is_sent is_delivered]; unfold is_timer_of in *;
      cbn [t_notificationId]; destruct (String.eqb x nid); lia.
  - unfold fire_timer.
    destruct (timers n !! i) as [t|] eqn:Et; [|done].
    destruct (t_due t <=? now); [|done]. cbn [nlog timers].
    rewrite !filter_length_snoc. cbn [is_sent is_delivered].
    pose proof (filter_length_delete (is_timer_of nid) (timers n) i t Et) as Hd.
    change (is_timer_of nid t) with (String.eqb (t_notificationId t) nid) in Hd.
    destruct (String.eqb (t_notificationId t) nid); lia.
  - done.
  - cbn [fst security_alert nlog timers]. rewrite !filter_length_snoc.
    cbn [is_sent is_delivered]. lia.
Qed.

(** X18.  Started with an empty log and no timer, after any sequence of
    requests and timer callbacks, the "sent" lines of a notification id
    are as many as its "delivered" lines plus its timers still armed:
    a notification is delivered at most once, and one that was never
    sent is never delivered. *)
Theorem deliveries_match_sends (es : list NEvent) (nid : string) :
  count_sent nid (nrun notifier0 es)
  = (count_delivered nid (nrun notifier0 es)
     + count_waiting nid (nrun notifier0 es))%nat
  /\ (count_delivered nid (nrun notifier0 es)
      <= count_sent nid (nrun notifier0 es))%nat.
Proof.
  assert (forall n,
            count_sent nid n
            = (count_delivered nid n + count_waiting nid n)%nat ->
            count_sent nid (nrun n es)
            = (count_delivered nid (nrun n es)
               + count_waiting nid (nrun n es))%nat) as Hrun.
  { unfold nrun. induction es as [|e es IH]; intros n Hn; simpl; [done|].
    by apply IH, nstep_balance. }
  specialize (Hrun notifier0 eq_refl). split; [done | lia].
Qed.




